(** * Command-summary aggregation of jfrog-cli: store, sections, final report

    A shallow embedding of
      - [utils/cliutils/githubSummary.go]  (package [cliutils], module [Cliutils])
      - the command-summary aggregator     (package [summary],  module [Summary])
    over a small model of the parts of the Go runtime they call
    ([os], [path], [log], [encoding/json]). *)

From Stdlib Require Import String Ascii List ZArith Lia Bool.
From stdpp Require Import base tactics option list strings gmap.


(* ===================================================================== *)
(** * The Go runtime as the two packages see it                          *)
(* ===================================================================== *)

Module Go.

(** Environmental failures of a system call that do not depend on the
    directory tree: permissions, device errors, a full disk. *)
Inductive Fault := EACCES | EIO | ENOSPC.

Inductive Errno := ENOENT | EISDIR | ENOTDIR | ENOTEMPTY | Injected (f : Fault).

(** Go's [error] values that can reach the modelled code.  [nil] is [None]. *)
Inductive Err :=
| PathError (op path : string) (code : Errno)   (* *fs.PathError *)
| ErrInvalid                                    (* os.ErrInvalid *)
| SyntaxError                                   (* *json.SyntaxError *)
| UnmarshalTypeError                            (* *json.UnmarshalTypeError *)
| ErrorString (msg : string)                    (* errors.New *)
| Errorf (format : string) (arg : Err).         (* fmt.Errorf with one error argument *)

Definition error := option Err.

(** [os.IsNotExist] only looks through the error types of package [os];
    it does not unwrap [fmt.Errorf] values. *)
Definition IsNotExist (err : error) : bool :=
  match err with
  | Some (PathError _ _ ENOENT) => true
  | _ => false
  end.

Inductive Node :=
| File (content : string)
| Dir (entries : list string).

(** One tag per [os] entry point, so that a world can make any one of them
    fail on any one path. *)
Inductive Call :=
| CReadFile (name : string)
| CWriteFile (name : string)
| CCreate (name : string)
| COpenFile (name : string)
| CWriteString (name : string)
| CClose (name : string)
| CStat (name : string)
| CReadDir (name : string)
| CRemove (name : string).

Inductive Level := LDebug | LInfo | LWarn.

Inductive LogArg :=
| AStr (s : string)
| AErr (e : Err).

(** A value of the interface [commandsummary.ScanResult], by what its two
    getters return; the nil interface is [None]. *)
Record ScanValues := mkScan { GetViolations : string; GetVulnerabilities : string }.
Definition ScanResult := option ScanValues.

Record World := mkWorld {
  files  : gmap string Node;           (* the directory tree, by full path *)
  env    : gmap string string;         (* the process environment *)
  faults : Call -> option Fault;       (* which calls fail, and how *)
  logs   : list (Level * list LogArg); (* what was logged, oldest first *)
  ScanResultsMapping : gmap string ScanResult
                                       (* package variable of commandsummary *)
}.

Definition set_files (fs : gmap string Node) (w : World) : World :=
  mkWorld fs (env w) (faults w) (logs w) (ScanResultsMapping w).

(** ** Sequencing: a Go function is a world transformer with a result *)

Definition M (A : Type) : Type := World -> A * World.

Definition ret {A} (a : A) : M A := fun w => (a, w).

Definition bind {A B} (m : M A) (k : A -> M B) : M B :=
  fun w => let (a, w') := m w in k a w'.

Declare Scope go_scope.
Delimit Scope go_scope with go.

Notation "'do' p <- c1 ; c2" := (bind c1 (fun p => c2))
  (at level 10, p pattern, c1 at level 100, c2 at level 200,
   format "'[v' 'do'  p  <-  c1 ; '/' c2 ']'") : go_scope.
Notation "'run' c1 ; c2" := (bind c1 (fun _ => c2))
  (at level 10, c1 at level 100, c2 at level 200,
   format "'[v' 'run'  c1 ; '/' c2 ']'") : go_scope.

Local Open Scope go_scope.

(** ** package log *)

Definition log (l : Level) (args : list LogArg) : M unit :=
  fun w => (tt, mkWorld (files w) (env w) (faults w) (logs w ++ [(l, args)])
                        (ScanResultsMapping w)).

(** ** package os *)

Definition Getenv (key : string) : M string :=
  fun w => (default "" (env w !! key), w).

Definition failing (c : Call) (op name : string) (w : World) : error :=
  match faults w c with
  | Some f => Some (PathError op name (Injected f))
  | None => None
  end.

(** [os.ReadFile]: the bytes of a regular file. *)
Definition ReadFile (name : string) : M (string * error) :=
  fun w =>
    match faults w (CReadFile name) with
    | Some f => (("", Some (PathError "open" name (Injected f))), w)
    | None =>
        match files w !! name with
        | None => (("", Some (PathError "open" name ENOENT)), w)
        | Some (Dir _) => (("", Some (PathError "read" name EISDIR)), w)
        | Some (File b) => ((b, None), w)
        end
    end.

(** [os.WriteFile]: create or truncate, then write.  A call that fails
    fails at the open and leaves the tree as it was. *)
Definition WriteFile (name data : string) : M error :=
  fun w =>
    match faults w (CWriteFile name) with
    | Some f => (Some (PathError "open" name (Injected f)), w)
    | None =>
        match files w !! name with
        | Some (Dir _) => (Some (PathError "open" name EISDIR), w)
        | _ => (None, set_files (<[name := File data]> (files w)) w)
        end
    end.

(** An open file, a pointer to [os.File]; the nil pointer is [None]. *)
Record Handle := mkHandle { hname : string }.

(** [os.Create]: create or truncate for writing. *)
Definition Create (name : string) : M (option Handle * error) :=
  fun w =>
    match faults w (CCreate name) with
    | Some f => ((None, Some (PathError "open" name (Injected f))), w)
    | None =>
        match files w !! name with
        | Some (Dir _) => ((None, Some (PathError "open" name EISDIR)), w)
        | _ => ((Some (mkHandle name), None),
                set_files (<[name := File ""]> (files w)) w)
        end
    end.

(** [os.OpenFile] with [O_APPEND|O_CREATE|O_WRONLY]. *)
Definition OpenFile_append (name : string) : M (option Handle * error) :=
  fun w =>
    match faults w (COpenFile name) with
    | Some f => ((None, Some (PathError "open" name (Injected f))), w)
    | None =>
        match files w !! name with
        | Some (Dir _) => ((None, Some (PathError "open" name EISDIR)), w)
        | Some (File _) => ((Some (mkHandle name), None), w)
        | None => ((Some (mkHandle name), None),
                   set_files (<[name := File ""]> (files w)) w)
        end
    end.

(** [File.WriteString] on a file opened for writing at its end.
    On the nil pointer it returns [os.ErrInvalid]. *)
Definition WriteString (f : option Handle) (s : string) : M error :=
  fun w =>
    match f with
    | None => (Some ErrInvalid, w)
    | Some h =>
        match faults w (CWriteString (hname h)) with
        | Some e => (Some (PathError "write" (hname h) (Injected e)), w)
        | None =>
            match files w !! hname h with
            | Some (File b) =>
                (None, set_files (<[hname h := File (b +:+ s)]> (files w)) w)
            | _ => (None, w)
            end
        end
    end.

(** [File.Close]; on the nil pointer it returns [os.ErrInvalid]. *)
Definition Close (f : option Handle) : M error :=
  fun w =>
    match f with
    | None => (Some ErrInvalid, w)
    | Some h => (failing (CClose (hname h)) "close" (hname h) w, w)
    end.

(** [os.Remove] of a file or of an empty directory. *)
Definition Remove (name : string) : M error :=
  fun w =>
    match faults w (CRemove name) with
    | Some f => (Some (PathError "remove" name (Injected f)), w)
    | None =>
        match files w !! name with
        | None => (Some (PathError "remove" name ENOENT), w)
        | Some (Dir (_ :: _)) => (Some (PathError "remove" name ENOTEMPTY), w)
        | Some _ => (None, set_files (delete name (files w)) w)
        end
    end.

(** [os.Stat]: the node at a path. *)
Definition Stat (name : string) : M (option Node * error) :=
  fun w =>
    match faults w (CStat name) with
    | Some f => ((None, Some (PathError "stat" name (Injected f))), w)
    | None =>
        match files w !! name with
        | None => ((None, Some (PathError "stat" name ENOENT)), w)
        | Some n => ((Some n, None), w)
        end
    end.

(** [os.ReadDir]: the entries of a directory. *)
Definition ReadDir (name : string) : M (list string * error) :=
  fun w =>
    match faults w (CReadDir name) with
    | Some f => (([], Some (PathError "open" name (Injected f))), w)
    | None =>
        match files w !! name with
        | None => (([], Some (PathError "open" name ENOENT)), w)
        | Some (File _) => (([], Some (PathError "readdirent" name ENOTDIR)), w)
        | Some (Dir es) => ((es, None), w)
        end
    end.

(** ** package path

    [path.Join] and [filepath.Join] drop empty elements and put one
    separator between the others.  The lexical clean-up they apply to the
    result is the identity on the paths built here from clean parts. *)
Definition Join (elems : list string) : string :=
  String.concat "/" (filter (fun e => e <> "") elems).

(** ** slices

    A Go slice is [nil] or holds a sequence; the difference shows in JSON
    ([null] against [[]]).  [append s xs...] returns [s] itself when there
    is nothing to add. *)
Definition slice (A : Type) : Type := option (list A).

Definition elems {A} (s : slice A) : list A := default [] s.

Definition append {A} (s : slice A) (xs : list A) : slice A :=
  match xs with
  | [] => s
  | _ :: _ => Some (elems s ++ xs)
  end.

(** ** deferred calls and panics

    [defer func() { err = d() }()] in a function whose result is the named
    [err]: when the body is left, [d] runs and its value replaces whatever
    the body returned. *)
Definition defer_assign {A} (d : M A) (body : M A) : M A :=
  do _ <- body;
  d.

(** A function that may panic: the deferred call still runs, the panic
    goes on to the caller. *)
Inductive Outcome (A : Type) :=
| Returns (a : A)
| Panics.
Arguments Returns {A} a.
Arguments Panics {A}.

Definition defer_assign_outcome {A} (d : M A) (body : M (Outcome A)) : M (Outcome A) :=
  do r <- body;
  do a <- d;
  ret (match r with Returns _ => Returns a | Panics => Panics end).

(** ** jfrog-client-go, fileutils.IsFileExists: a path that is there and is
    not a directory. *)
Definition IsFileExists (path : string) : M (bool * error) :=
  do (info, err) <- Stat path;
  match err with
  | Some _ => if IsNotExist err then ret (false, None) else ret (false, err)
  | None =>
      match info with
      | Some (Dir _) => ret (false, None)
      | _ => ret (true, None)
      end
  end.

(** ** A notion for statements about what a function leaves alone *)

(** From [w] to [w'] the failures and the environment are the same, and
    so is every file other than [name]. *)
Definition sameOutside (name : string) (w w' : World) : Prop :=
  faults w' = faults w /\ env w' = env w
  /\ forall q, q <> name -> files w' !! q = files w !! q.

End Go.

(* ===================================================================== *)
(** * The tree of uploaded paths                                         *)
(* ===================================================================== *)

Module PathTree.

(** Modelled from the spec: the path tree ([FileTree] with [NewFileTree],
    [AddFile] and [String]) is imported by [githubSummary.go] from another
    package and is not part of the sources at hand.  The spec gives it as:
    a node owns a mapping from child segment name to child node with unique
    keys, a node without children is a leaf; [addPath] splits the path by
    its separator and walks or creates the nodes segment by segment from the
    root, never replacing an existing segment; [render] gives one line per
    node, indented by depth, depth first, children in insertion order. *)
#[local] Set Warnings "-register-all".
Inductive PathTreeNode :=
| Node (children : list (string * PathTreeNode)).

Definition children (n : PathTreeNode) : list (string * PathTreeNode) :=
  match n with Node cs => cs end.

(** Modelled from the spec: the tree without any path, a root without
    children. *)
Definition empty : PathTreeNode := Node [].

Definition separator : ascii := "/"%char.

(** Modelled from the spec: the ordered segments of a path. *)
Fixpoint split (path : string) : list string :=
  match path with
  | EmptyString => [EmptyString]
  | String c rest =>
      if Ascii.eqb c separator then EmptyString :: split rest
      else match split rest with
           | seg :: segs => String c seg :: segs
           | [] => [String c EmptyString]
           end
  end.

(** Modelled from the spec: one step of the walk, in the children of a
    node; an existing child named [seg] is entered with [below], a missing
    one is created after its siblings.  Keys stay unique and keep their
    insertion order. *)
Fixpoint enter (seg : string) (below : PathTreeNode -> PathTreeNode)
    (cs : list (string * PathTreeNode)) : list (string * PathTreeNode) :=
  match cs with
  | [] => [(seg, below empty)]
  | (name, child) :: others =>
      if String.eqb name seg then (name, below child) :: others
      else (name, child) :: enter seg below others
  end.

(** Modelled from the spec: walk down one segment at a time from the
    root. *)
Fixpoint addSegments (segs : list string) (n : PathTreeNode) : PathTreeNode :=
  match segs with
  | [] => n
  | seg :: rest => Node (enter seg (addSegments rest) (children n))
  end.

(** Modelled from the spec: [addPath]. *)
Definition addPath (path : string) (t : PathTreeNode) : PathTreeNode :=
  addSegments (split path) t.

Definition newline : string := String "010"%char EmptyString.

Fixpoint indentation (unit : string) (depth : nat) : string :=
  match depth with
  | O => EmptyString
  | S d => unit +:+ indentation unit d
  end.

(** Modelled from the spec: [render], one line per node below the root. *)
Fixpoint renderAt (unit : string) (depth : nat) (n : PathTreeNode) : string :=
  match n with
  | Node cs =>
      (fix lines (cs : list (string * PathTreeNode)) : string :=
         match cs with
         | [] => EmptyString
         | (name, child) :: others =>
             indentation unit depth +:+ name +:+ newline
               +:+ renderAt unit (S depth) child +:+ lines others
         end) cs
  end.

Definition render (t : PathTreeNode) : string := renderAt "  " 0 t.

End PathTree.

(* ===================================================================== *)
(** * package cliutils: the result store (githubSummary.go)              *)
(* ===================================================================== *)

(** The source file holds two revisions of the package one after the
    other.  The first is embedded, and line numbers refer to it; the
    second reads the store with the same bare return and appends in the
    same way. *)

Module Cliutils.
Import Go.
Local Open Scope go_scope.

Record Result := mkResult {
  SourcePath : string;
  TargetPath : string;
  RtUrl : string
}.

Record ResultsWrapper := mkWrapper { Results : slice Result }.

(** The zero value [ResultsWrapper{}]. *)
Definition zero : ResultsWrapper := mkWrapper None.

Record GitHubActionSummary := mkSummary {
  dirPath : string;
  rawDataFile : string;
  uploadTree : option PathTree.PathTreeNode
}.

(** What [AppendResult] uses of the command result it is handed: a pointer
    to a result, whose reader (another pointer) lists fragment files. *)
Record ContentReader := mkReader { GetFilesPaths : list string }.
Record CommandResult := mkCommandResult { Reader : option ContentReader }.

(** ** encoding/json at type [ResultsWrapper]

    [Unmarshal b] is [json.Unmarshal(b, &w)] on a fresh zero [w]: the value
    of [w] afterwards and the error.  The two encoders return the bytes and
    the error. *)
Class Json := {
  Unmarshal : string -> ResultsWrapper * error;
  MarshalIndent : ResultsWrapper -> string * error;
  Marshal : ResultsWrapper -> string * error;
  (** the records JSON text carries unchanged (for Go: the three strings
      are well-formed UTF-8) *)
  portable : Result -> Prop
}.

Class JsonLaws `{Json} : Prop := {
  (** a struct of strings is always encodable *)
  MarshalIndent_ok : forall w, (MarshalIndent w).2 = None;
  (** decoding an encoding gives the value back *)
  Unmarshal_MarshalIndent : forall w,
    Forall portable (elems (Results w)) ->
    Unmarshal (MarshalIndent w).1 = (w, None);
  (** decoded records are portable *)
  Unmarshal_portable : forall b w,
    Unmarshal b = (w, None) -> Forall portable (elems (Results w));
  (** the empty input is not a JSON text *)
  Unmarshal_empty : (Unmarshal EmptyString).2 = Some SyntaxError;
  (** the input is checked as a whole before anything is stored *)
  Unmarshal_syntax : forall b w,
    Unmarshal b = (w, Some SyntaxError) -> w = zero
}.

Section Store.
Context `{Json}.

Definition getDataFilePath (gh : GitHubActionSummary) : string :=
  Join [dirPath gh; rawDataFile gh].

(** githubSummary.go:121 *)
Definition loadAndMarshalResultsFile (gh : GitHubActionSummary)
  : M (ResultsWrapper * string * error) :=
  do (targetBytes, err) <- ReadFile (getDataFilePath gh);
  if bool_decide (err <> None) && negb (IsNotExist err) then
    run log LWarn [AStr "data file not found "; AStr (getDataFilePath gh)];
    ret (zero, EmptyString, err)
  else if Nat.leb (String.length targetBytes) 0 then
    run log LWarn [AStr "empty data file: "; AStr (getDataFilePath gh)];
    (* bare return: the named results as they stand, [err] included *)
    ret (zero, targetBytes, err)
  else
    let (targetWrapper, err) := Unmarshal targetBytes in
    ret (targetWrapper, targetBytes, err).

(** The loop of githubSummary.go:87-100; an error leaves [AppendResult]. *)
Fixpoint readFiles (paths : list string) (readContent : slice Result)
  : M (slice Result * error) :=
  match paths with
  | [] => ret (readContent, None)
  | file :: rest =>
      do (sourceBytes, err) <- ReadFile file;
      match err with
      | Some _ => ret (readContent, err)
      | None =>
          let (sourceWrapper, err) := Unmarshal sourceBytes in
          match err with
          | Some _ => ret (readContent, err)
          | None => readFiles rest (append readContent (elems (Results sourceWrapper)))
          end
      end
  end.

(** githubSummary.go:85-101 *)
Definition readResult (result : option CommandResult) : M (slice Result * error) :=
  match result with
  | Some r =>
      match Reader r with
      | Some reader => readFiles (GetFilesPaths reader) None
      | None => ret (None, None)
      end
  | None => ret (None, None)
  end.

(** githubSummary.go:83 *)
Definition AppendResult (gh : GitHubActionSummary) (result : option CommandResult)
  : M error :=
  do (readContent, err) <- readResult result;
  match err with
  | Some _ => ret err
  | None =>
      do (loaded, err) <- loadAndMarshalResultsFile gh;
      let (targetWrapper, targetBytes) := loaded in
      let targetWrapper :=
        mkWrapper (append (Results targetWrapper) (elems readContent)) in
      let (targetBytes, err) := MarshalIndent targetWrapper in
      match err with
      | Some _ => ret err
      | None =>
          do err <- WriteFile (getDataFilePath gh) targetBytes;
          match err with
          | Some _ => ret err
          | None => ret None
          end
      end
  end.

(** githubSummary.go:63 *)
Definition generateUploadedFilesTree (gh : GitHubActionSummary)
  : M (GitHubActionSummary * error) :=
  do (loaded, err) <- loadAndMarshalResultsFile gh;
  let (object, _) := loaded in
  match err with
  | Some _ => ret (gh, err)
  | None =>
      let tree :=
        fold_left (fun t b => PathTree.addPath (TargetPath b) t)
                  (elems (Results object)) PathTree.empty in
      ret (mkSummary (dirPath gh) (rawDataFile gh) (Some tree), None)
  end.

Definition backticks : string := "```".

(** githubSummary.go:139.  Rendering the tree of a summary that has none
    dereferences a nil pointer. *)
Definition generateMarkdown (gh : GitHubActionSummary) : M (Outcome error) :=
  let tempMarkdownPath := Join [dirPath gh; "github-action-summary.md"] in
  run log LInfo [AStr "removing previous file: "; AStr tempMarkdownPath];
  do _ <- Remove tempMarkdownPath;
  run log LInfo [AStr "writing markdown to: "; AStr tempMarkdownPath];
  do (file, err) <- OpenFile_append tempMarkdownPath;
  defer_assign_outcome (Close file)
    match err with
    | Some e => ret (Returns (Some (Errorf "failed to open file: %w" e)))
    | None =>
        do _ <- WriteString file
                  ("# 🐸 JFrog CLI Github Action Summary 🐸" +:+ PathTree.newline);
        do _ <- WriteString file ("## Uploaded artifacts:" +:+ PathTree.newline);
        match uploadTree gh with
        | None => ret Panics
        | Some tree =>
            do err <- WriteString file
                        (backticks +:+ PathTree.newline +:+ PathTree.render tree
                           +:+ backticks);
            ret (Returns err)
        end
    end.

(** githubSummary.go:160, at [content] of type [ResultsWrapper]. *)
Definition createTempFile (filePath : string) (content : ResultsWrapper) : M error :=
  do (exists_, err) <- IsFileExists filePath;
  if bool_decide (err <> None) || exists_ then ret err
  else
    do (file, err) <- Create filePath;
    defer_assign (Close file)
      match err with
      | Some e => ret (Some (Errorf "failed to create file: %w" e))
      | None =>
          let (bytes, err) := Marshal content in
          match err with
          | Some e => ret (Some (Errorf "failed to marshal content: %w" e))
          | None =>
              do err <- WriteString file bytes;
              match err with
              | Some e => ret (Some (Errorf "failed to write content: %w" e))
              | None =>
                  run log LInfo [AStr "created file:"; AStr filePath];
                  ret None
              end
          end
      end.

(** ** Notions the statements about the store use *)

(** What reading and decoding one fragment file fails with, if it does. *)
Definition fragmentError (file : string) (w : World) : error :=
  let '(sourceBytes, err) := (ReadFile file w).1 in
  match err with
  | Some _ => err
  | None => (Unmarshal sourceBytes).2
  end.

(** The Results the store file holds: none when it is missing or empty,
    the decoded sequence when it holds a document; [None] when it cannot
    be read or decoded. *)
Definition persisted (gh : GitHubActionSummary) (w : World) : option (list Result) :=
  match faults w (CReadFile (getDataFilePath gh)), files w !! getDataFilePath gh with
  | Some _, _ => None
  | None, None => Some []
  | None, Some (Dir _) => None
  | None, Some (File b) =>
      if Nat.leb (String.length b) 0 then Some []
      else match Unmarshal b with
           | (targetWrapper, None) => Some (elems (Results targetWrapper))
           | (_, Some _) => None
           end
  end.

(** The store file cannot be loaded: the read fails with something else
    than file-not-found, or the bytes are there and are not JSON. *)
Definition unloadable (gh : GitHubActionSummary) (w : World) : Prop :=
  (exists e, (ReadFile (getDataFilePath gh) w).1.2 = Some e
             /\ IsNotExist (Some e) = false)
  \/ (exists b, (ReadFile (getDataFilePath gh) w).1 = (b, None)
                /\ b <> EmptyString /\ (Unmarshal b).2 = Some SyntaxError).

(** A run of [AppendResult] calls that returned no error, with the batch
    each call read from its fragment files. *)
Inductive appends (gh : GitHubActionSummary)
  : World -> list (list Result) -> World -> Prop :=
| appends_nil w : appends gh w [] w
| appends_cons w result readContent w1 batches w2 :
    (readResult result w).1 = (readContent, None) ->
    AppendResult gh result w = (None, w1) ->
    appends gh w1 batches w2 ->
    appends gh w (elems readContent :: batches) w2.

End Store.

(** ** The entry point and the set-up of a summary *)

Section Entry.
Context `{Json}.

(** [fileutils.CreateDirIfNotExist] of jfrog-client-go. *)
Variable CreateDirIfNotExist : string -> M error.

Definition homeDir : string := "/Users/runner/.jfrog/jfrog-github-summary".
Definition githubActionsEnv : string := "GITHUB_ACTIONS".

(** githubSummary.go:75 *)
Definition getRuntimeInfoFilePath (gh : GitHubActionSummary) : string :=
  Join [dirPath gh; "runtime-info.json"].

(** githubSummary.go:220; the summary passed in is dropped, and the
    pointer handed back is never nil. *)
Definition newGithubActionSummary (gh : option GitHubActionSummary)
  : GitHubActionSummary :=
  mkSummary homeDir "data.json" None.

(** githubSummary.go:202 *)
Definition tryLoadPreviousRuntimeInfo : M (option GitHubActionSummary * error) :=
  let gh := newGithubActionSummary None in
  do err <- CreateDirIfNotExist homeDir;
  match err with
  | Some e => ret (None, Some (Errorf "failed to create dir %s: %w" e))
  | None => ret (Some gh, None)
  end.

(** githubSummary.go:211 *)
Definition createNewGithubSummary : M (option GitHubActionSummary * error) :=
  let gh := newGithubActionSummary None in
  do err <- createTempFile (getDataFilePath gh) (mkWrapper (Some []));
  match err with
  | Some e => ret (None, Some (Errorf "failed to create data file: %w" e))
  | None => ret (Some gh, None)
  end.

(** githubSummary.go:184 *)
Definition initGithubActionSummary : M (option GitHubActionSummary * error) :=
  do (gh, err) <- tryLoadPreviousRuntimeInfo;
  match err with
  | Some e => ret (None, Some (Errorf "failed to load runtime info: %w" e))
  | None =>
      match gh with
      | Some _ =>
          run log LDebug [AStr "successfully loaded GitHubActionSummary from previous runs"];
          ret (gh, None)
      | None =>
          run log LDebug [AStr "creating new GitHubActionSummary..."];
          do (gh, err) <- createNewGithubSummary;
          match err with
          | Some e => ret (None, Some (Errorf "failed to create temp files: %w" e))
          | None => ret (gh, None)
          end
      end
  end.

(** githubSummary.go:42.  A nil summary without an error does not come
    out of [initGithubActionSummary]; calling a method on it would
    panic. *)
Definition GenerateGitHubActionSummary (result : option CommandResult)
  : M (Outcome error) :=
  do actions <- Getenv githubActionsEnv;
  if negb (String.eqb actions "true") then ret (Returns None)
  else
    do (gh, err) <- initGithubActionSummary;
    match err with
    | Some e =>
        ret (Returns (Some (Errorf "failed while initiating Github job summaries: %w" e)))
    | None =>
        match gh with
        | None => ret Panics
        | Some gh =>
            do err <- AppendResult gh result;
            match err with
            | Some e => ret (Returns (Some (Errorf "failed while appending results: %s" e)))
            | None =>
                do (gh, err) <- generateUploadedFilesTree gh;
                match err with
                | Some e =>
                    ret (Returns (Some (Errorf "failed while creating file tree: %w" e)))
                | None => generateMarkdown gh
                end
            end
        end
    end.

End Entry.

(** ** Notions the statements about the markdown of the store use *)

Definition summaryPath (gh : GitHubActionSummary) : string :=
  Join [dirPath gh; "github-action-summary.md"].

(** The tree of the target paths of a sequence of Results, added in
    order. *)
Definition uploadedTree (rs : list Result) : PathTree.PathTreeNode :=
  fold_left (fun t b => PathTree.addPath (TargetPath b) t) rs PathTree.empty.

(** The three pieces [generateMarkdown] writes, one after the other. *)
Definition summaryMarkdown (tree : PathTree.PathTreeNode) : string :=
  ("# 🐸 JFrog CLI Github Action Summary 🐸" +:+ PathTree.newline)
  +:+ ("## Uploaded artifacts:" +:+ PathTree.newline)
  +:+ (backticks +:+ PathTree.newline +:+ PathTree.render tree +:+ backticks).

(** The world the set-up hands on when the directory is there: a debug
    line more. *)
Definition loaded (w : World) : World :=
  (log LDebug [AStr "successfully loaded GitHubActionSummary from previous runs"] w).2.

End Cliutils.

(* ===================================================================== *)
(** * package cliutils, the second revision in githubSummary.go          *)
(* ===================================================================== *)

Module Cliutils2.
Import Go.
Local Open Scope go_scope.

Record GitHubActionSummary := mkSummary {
  dirPath : string;
  rawDataFile : string;
  treeFile : string;
  uploadTree : option PathTree.PathTreeNode
}.

Section Store.
Context `{Cliutils.Json}.

(** githubSummary.go:300 *)
Definition getFilePath (gh : GitHubActionSummary) : string :=
  Join [dirPath gh; rawDataFile gh].

(** githubSummary.go:352 *)
Definition loadAndMarshalResultsFile (gh : GitHubActionSummary)
  : M (Cliutils.ResultsWrapper * string * error) :=
  do (targetBytes, err) <- ReadFile (getFilePath gh);
  if bool_decide (err <> None) && negb (IsNotExist err) then
    ret (Cliutils.zero, EmptyString, err)
  else if Nat.ltb 0 (String.length targetBytes) then
    let (targetWrapper, err) := Cliutils.Unmarshal targetBytes in
    ret (targetWrapper, targetBytes, err)
  else ret (Cliutils.zero, targetBytes, err).

End Store.
End Cliutils2.

(* ===================================================================== *)
(** * package summary: sections and the combined report                  *)
(* ===================================================================== *)

Module Summary.
Import Go.
Local Open Scope go_scope.

Definition MarkdownSection := string.

Definition Security : MarkdownSection := "security".
Definition BuildInfo : MarkdownSection := "build-info".
Definition Upload : MarkdownSection := "upload".

Definition JfrogCliSummaryDir : string := "jfrog-command-summary".
Definition MarkdownFileName : string := "markdown.md".

(** [coreutils.SummaryOutputDirPathEnv] *)
Definition SummaryOutputDirPathEnv : string := "JFROG_CLI_COMMAND_SUMMARY_OUTPUT_DIR".

Definition markdownSections : list MarkdownSection := [Security; BuildInfo; Upload].

(** [commandsummary.Index]: the kinds of indexed data files. *)
Inductive Index := DockerScan | BuildScan | BinariesScan | OtherIndex (name : string).

(** ** The mock scanner (part_000:247-295) *)

Definition notScanned : ScanValues := mkScan "not scanned" "not scanned".

Definition BuildScan_mock (filePaths : list string) : ScanResult * ScanResult * error :=
  (Some (mkScan "Mock Build Scan Violations" "Mock Build Scan Vulnerabilities"),
   Some notScanned, None).

Definition DockerScanScan (filePaths : list string) : ScanResult * ScanResult * error :=
  (Some (mkScan "Mock Docker Scan Violations" "Mock Docker Scan Vulnerabilities"),
   Some notScanned, None).

Definition BinaryScanScan (filePaths : list string) : ScanResult * ScanResult * error :=
  (Some (mkScan "Mock Docker Scan Violations" "Mock Docker Scan Vulnerabilities"),
   Some notScanned, None).

(** part_000:167; the map it fills is passed in and handed back. *)
Definition processScan (index : Index) (filePath scannedName : string)
    (myMappedResults : gmap string ScanResult) : M (gmap string ScanResult) :=
  let '(res, fallback, err) :=
    match index with
    | DockerScan => DockerScanScan [filePath]
    | BuildScan => BuildScan_mock [filePath]
    | BinariesScan => BinaryScanScan [filePath]
    | OtherIndex _ => (None, None, None)
    end in
  let myMappedResults := <[scannedName := res]> myMappedResults in
  let myMappedResults := <["fallback" := fallback]> myMappedResults in
  match err with
  | Some e =>
      run log LWarn [AStr "Failed to generate scan result for %s: %v";
                     AStr scannedName; AErr e];
      ret myMappedResults
  | None => ret myMappedResults
  end.

Section Aggregator.

(** ** Collaborators from other packages *)

(** [*cli.Context], server details, the services manager, and a section's
    summary object. *)
Variables Context ServerDetails ServiceManager CommandSummary : Type.

Variable Url : ServerDetails -> string.
Variable CreateServerDetailsWithConfigOffer : Context -> M (ServerDetails * error).
Variable CreateServiceManager : ServerDetails -> M (ServiceManager * error).
Variable GetRtMajorVersion : ServiceManager -> M (Z * error).
Variable InitMarkdownGenerationValues : string -> Z -> M error.

Variable SecurityCommandsJobSummary : M (CommandSummary * error).
Variable NewBuildInfoSummary : M (CommandSummary * error).
Variable NewUploadSummary : M (CommandSummary * error).
Variable GenerateMarkdown : CommandSummary -> M error.
(** A Go map of maps; the lists give the order in which one run ranges over
    them. *)
Variable GetIndexedDataFilesPaths :
  CommandSummary -> M (list (Index * list (string * string)) * error).

(** part_000:241 *)
Definition ShouldGenerateSummary : M bool :=
  do dir <- Getenv SummaryOutputDirPathEnv;
  ret (negb (String.eqb dir EmptyString)).

(** part_000:212 *)
Definition createPlatformDetailsByFlags (c : Context) : M (option ServerDetails * error) :=
  do (platformDetails, err) <- CreateServerDetailsWithConfigOffer c;
  match err with
  | Some e => ret (None, Some (Errorf "error creating platform details: %w" e))
  | None =>
      if String.eqb (Url platformDetails) EmptyString
      then ret (None, Some (ErrorString "platform URL is mandatory for access token creation"))
      else ret (Some platformDetails, None)
  end.

(** part_000:223 *)
Definition extractServerUrlAndVersion (c : Context) : M (string * Z * error) :=
  do (serverDetails, err) <- createPlatformDetailsByFlags c;
  match serverDetails, err with
  | Some serverDetails, None =>
      let platformUrl := Url serverDetails in
      do (servicesManager, err) <- CreateServiceManager serverDetails;
      match err with
      | Some e => ret (EmptyString, 0%Z, Some (Errorf "error creating services manager: %w" e))
      | None =>
          do (platformMajorVersion, err) <- GetRtMajorVersion servicesManager;
          match err with
          | Some e =>
              ret (EmptyString, 0%Z,
                   Some (Errorf "error getting Artifactory major platformMajorVersion: %w" e))
          | None => ret (platformUrl, platformMajorVersion, None)
          end
      end
  | _, Some e => ret (EmptyString, 0%Z, Some (Errorf "error extracting server details: %w" e))
  | None, None =>
      (* not reached: [createPlatformDetailsByFlags] gives details or an error *)
      ret (EmptyString, 0%Z, None)
  end.

(** part_000:138 *)
Definition generateSecurityMarkdown : M error :=
  do (securitySummary, err) <- SecurityCommandsJobSummary;
  match err with
  | Some e => ret (Some (Errorf "error generating security markdown: %w" e))
  | None => GenerateMarkdown securitySummary
  end.

(** The two nested loops of part_000:158-162. *)
Fixpoint scanFiles (index : Index) (keyValue : list (string * string))
    (mapped : gmap string ScanResult) : M (gmap string ScanResult) :=
  match keyValue with
  | [] => ret mapped
  | (scannedName, filePath) :: rest =>
      do mapped <- processScan index filePath scannedName mapped;
      scanFiles index rest mapped
  end.

Fixpoint scanIndexes (indexedFiles : list (Index * list (string * string)))
    (mapped : gmap string ScanResult) : M (gmap string ScanResult) :=
  match indexedFiles with
  | [] => ret mapped
  | (index, keyValue) :: rest =>
      do mapped <- scanFiles index keyValue mapped;
      scanIndexes rest mapped
  end.

Definition set_ScanResultsMapping (m : gmap string ScanResult) : M unit :=
  fun w => (tt, mkWorld (files w) (env w) (faults w) (logs w) m).

(** part_000:146 *)
Definition generateBuildInfoMarkdown : M error :=
  do (buildInfoSummary, err) <- NewBuildInfoSummary;
  match err with
  | Some e => ret (Some (Errorf "error generating build-info markdown: %w" e))
  | None =>
      do (indexedFiles, err) <- GetIndexedDataFilesPaths buildInfoSummary;
      match err with
      | Some _ => ret err
      | None =>
          do myMappedResults <- scanIndexes indexedFiles ∅;
          run set_ScanResultsMapping myMappedResults;
          GenerateMarkdown buildInfoSummary
      end
  end.

(** part_000:200 *)
Definition shouldGenerateUploadSummary : M (bool * error) :=
  do dir <- Getenv SummaryOutputDirPathEnv;
  let buildInfoPath := Join [dir; JfrogCliSummaryDir; BuildInfo] in
  do (_, err) <- Stat buildInfoPath;
  if IsNotExist err then ret (true, None)
  else
    do (dirEntries, err) <- ReadDir buildInfoPath;
    match err with
    | Some e => ret (false, Some (Errorf "error reading directory: %w" e))
    | None => ret (Nat.eqb (length dirEntries) 0, None)
    end.

(** part_000:187 *)
Definition generateUploadMarkdown : M error :=
  do (should, err) <- shouldGenerateUploadSummary;
  if bool_decide (err <> None) || negb should then
    run log LDebug
      [AStr "Skipping upload summary generation due build-info data to avoid duplications..."];
    ret err
  else
    do (uploadSummary, err) <- NewUploadSummary;
    match err with
    | Some e => ret (Some (Errorf "error generating upload markdown: %w" e))
    | None => GenerateMarkdown uploadSummary
    end.

(** part_000:125 *)
Definition invokeSectionMarkdownGeneration (section : MarkdownSection) : M error :=
  if String.eqb section Security then generateSecurityMarkdown
  else if String.eqb section BuildInfo then generateBuildInfoMarkdown
  else if String.eqb section Upload then generateUploadMarkdown
  else ret (Some (ErrorString ("unknown section: " +:+ section))).

(** part_000:109 *)
Definition getSectionMarkdownContent (section : MarkdownSection) : M (string * error) :=
  do dir <- Getenv SummaryOutputDirPathEnv;
  let sectionFilepath := Join [dir; JfrogCliSummaryDir; section; MarkdownFileName] in
  do (_, err) <- Stat sectionFilepath;
  if IsNotExist err then ret (EmptyString, None)
  else
    do (contentBytes, err) <- ReadFile sectionFilepath;
    match err with
    | Some e =>
        ret (EmptyString, Some (Errorf "error reading markdown file for section %s: %w" e))
    | None =>
        if Nat.eqb (String.length contentBytes) 0 then ret (EmptyString, None)
        else ret (contentBytes, None)
    end.

(** The loop of part_000:77-85 over the sections still to read, with the
    builder's text so far.  Writing to a [strings.Builder] cannot fail. *)
Fixpoint combineSections (sections : list MarkdownSection) (combinedMarkdown : string)
  : M (string * error) :=
  match sections with
  | [] => ret (combinedMarkdown, None)
  | section :: rest =>
      do (sectionContent, err) <- getSectionMarkdownContent section;
      match err with
      | Some e =>
          ret (EmptyString,
               Some (Errorf "error getting markdown content for section %s: %w" e))
      | None => combineSections rest (combinedMarkdown +:+ sectionContent)
      end
  end.

(** part_000:74 *)
Definition combineMarkdownFiles : M (string * error) :=
  combineSections markdownSections EmptyString.

(** part_000:90 *)
Definition saveMarkdownToFileSystem (finalMarkdown : string) : M error :=
  if String.eqb finalMarkdown EmptyString then ret None
  else
    do dir <- Getenv SummaryOutputDirPathEnv;
    let filePath := Join [dir; JfrogCliSummaryDir; MarkdownFileName] in
    do (file, err) <- Create filePath;
    defer_assign (Close file)
      match err with
      | Some e => ret (Some (Errorf "error creating markdown file: %w" e))
      | None =>
          do err <- WriteString file finalMarkdown;
          match err with
          | Some e => ret (Some (Errorf "error writing to markdown file: %w" e))
          | None => ret None
          end
      end.

(** The loop of part_000:59-63. *)
Fixpoint generateSections (sections : list MarkdownSection) : M unit :=
  match sections with
  | [] => ret tt
  | section :: rest =>
      do err <- invokeSectionMarkdownGeneration section;
      match err with
      | Some e =>
          run log LWarn [AStr "Failed to generate markdown for section %s: %v";
                         AStr section; AErr e];
          generateSections rest
      | None => generateSections rest
      end
  end.

(** part_000:43 *)
Definition GenerateSummaryMarkdown (c : Context) : M error :=
  do should <- ShouldGenerateSummary;
  if negb should then
    ret (Some (ErrorString
      ("unable to generate the command summary because the output directory is not specified."
       +:+ " Please ensure that the environment variable '%s' is set before running your commands to enable summary generation")))
  else
    do (urlAndVersion, err) <- extractServerUrlAndVersion c;
    let (serverUrl, majorVersion) := urlAndVersion in
    match err with
    | Some e =>
        ret (Some (Errorf
          "failed to get server URL or major version: %v. This means markdown URLs will be invalid" e))
    | None =>
        do err <- InitMarkdownGenerationValues serverUrl majorVersion;
        match err with
        | Some e => ret (Some (Errorf "failed to initialize command summary values: %w" e))
        | None =>
            run generateSections markdownSections;
            do (finalMarkdown, err) <- combineMarkdownFiles;
            match err with
            | Some e => ret (Some (Errorf "error combining markdown files: %w" e))
            | None => saveMarkdownToFileSystem finalMarkdown
            end
        end
    end.

(** ** Notions the statements about the aggregator use *)

Definition outputDir (w : World) : string :=
  default EmptyString (env w !! SummaryOutputDirPathEnv).

(** Where the final report goes. *)
Definition reportPath (w : World) : string :=
  Join [outputDir w; JfrogCliSummaryDir; MarkdownFileName].

(** The output subdirectory of the build-info section. *)
Definition buildInfoPath (w : World) : string :=
  Join [outputDir w; JfrogCliSummaryDir; BuildInfo].

Definition sectionPath (section : MarkdownSection) (w : World) : string :=
  Join [outputDir w; JfrogCliSummaryDir; section; MarkdownFileName].

(** The markdown a section has on disk: the bytes of its file, nothing
    when the file is not there. *)
Definition sectionText (section : MarkdownSection) (w : World) : string :=
  match files w !! sectionPath section w with
  | Some (File b) => b
  | _ => EmptyString
  end.

(** One section attempted: its generator runs, and a failure is logged as
    a warning. *)
Definition attempt (section : MarkdownSection) (w : World) : World :=
  let (err, w1) := invokeSectionMarkdownGeneration section w in
  match err with
  | Some e =>
      (log LWarn [AStr "Failed to generate markdown for section %s: %v";
                  AStr section; AErr e] w1).2
  | None => w1
  end.

(** The world in which the upload section was skipped: a debug line more. *)
Definition skipped (w : World) : World :=
  (log LDebug
     [AStr "Skipping upload summary generation due build-info data to avoid duplications..."]
     w).2.

(** The document as the specification describes it: in section order,
    the markdown of each section, and nothing for a section whose
    generation failed. *)
Fixpoint failures (sections : list MarkdownSection) (w : World)
  : list (MarkdownSection * bool) * World :=
  match sections with
  | [] => ([], w)
  | section :: rest =>
      let failed := bool_decide ((invokeSectionMarkdownGeneration section w).1 <> None) in
      let (flags, w') := failures rest (attempt section w) in
      ((section, failed) :: flags, w')
  end.

Definition describedDocument (w : World) : string :=
  let (flags, w') := failures markdownSections w in
  String.concat EmptyString
    (map (fun sf : MarkdownSection * bool =>
            if sf.2 then EmptyString else sectionText sf.1 w') flags).

End Aggregator.

(** The names the two loops of the build-info section go through, in the
    order they go through them. *)
Definition scannedNames (indexedFiles : list (Index * list (string * string)))
  : list string :=
  concat (map (fun entry : Index * list (string * string) => map fst entry.2)
              indexedFiles).

End Summary.

(* ===================================================================== *)
(** * A JSON codec for [ResultsWrapper] to run the store with            *)
(* ===================================================================== *)

(** The encoders lay the text out byte for byte as [json.Marshal] and
    [json.MarshalIndent(w, "", "  ")] do for strings of ASCII; bytes from
    128 up are copied through, as the Go encoder does with well-formed
    UTF-8.  The decoder reads the documents of that shape in any layout
    (white space between tokens, any string escapes, [results] null or an
    array of objects with the three keys in the declared order) and rejects
    every other input as a syntax error.  Each encoder is given the text
    that follows its output. *)
Module RefJson.
Import Go Cliutils.

Definition quote : ascii := "034"%char.
Definition backslash : ascii := "\"%char.
Definition nl : ascii := "010"%char.

Definition hexdigit (n : nat) : ascii :=
  nth n ["0"; "1"; "2"; "3"; "4"; "5"; "6"; "7"; "8"; "9";
         "a"; "b"; "c"; "d"; "e"; "f"]%char "0"%char.

(** The characters the Go encoder writes as a six-character escape:
    controls without a short form, and the three HTML characters. *)
Definition longEscaped (c : ascii) : bool :=
  Nat.ltb (nat_of_ascii c) 32
  || Ascii.eqb c "<" || Ascii.eqb c ">" || Ascii.eqb c "&".

Definition encChar (c : ascii) (k : string) : string :=
  if Ascii.eqb c quote then String backslash (String quote k)
  else if Ascii.eqb c backslash then String backslash (String backslash k)
  else if Ascii.eqb c "010" then String backslash (String "n" k)
  else if Ascii.eqb c "013" then String backslash (String "r" k)
  else if Ascii.eqb c "009" then String backslash (String "t" k)
  else if longEscaped c then
    String backslash (String "u" (String "0" (String "0"
      (String (hexdigit (nat_of_ascii c / 16))
         (String (hexdigit (nat_of_ascii c mod 16)) k)))))
  else String c k.

Fixpoint encChars (s : string) (k : string) : string :=
  match s with
  | EmptyString => k
  | String c r => encChar c (encChars r k)
  end.

(** A string literal. *)
Definition encString (s : string) (k : string) : string :=
  String quote (encChars s (String quote k)).

Definition lit (text : string) (k : string) : string := text +:+ k.

Definition encResult (r : Result) (k : string) : string :=
  lit "{" (encString "sourcePath" (lit ":" (encString (SourcePath r)
  (lit "," (encString "targetPath" (lit ":" (encString (TargetPath r)
  (lit "," (encString "rtUrl" (lit ":" (encString (RtUrl r)
  (lit "}" k)))))))))))).

Fixpoint encMore (rs : list Result) (k : string) : string :=
  match rs with
  | [] => lit "]" k
  | r :: rest => lit "," (encResult r (encMore rest k))
  end.

Definition encResults (rs : slice Result) (k : string) : string :=
  match rs with
  | None => lit "null" k
  | Some [] => lit "[]" k
  | Some (r :: rest) => lit "[" (encResult r (encMore rest k))
  end.

Definition encWrapper (w : ResultsWrapper) : string :=
  lit "{" (encString "results" (lit ":" (encResults (Results w) (lit "}" EmptyString)))).

(** The same with a line per value and two spaces per level. *)
Definition line (depth : nat) (k : string) : string :=
  String nl (PathTree.indentation "  " depth +:+ k).

Definition indResult (r : Result) (k : string) : string :=
  lit "{" (line 3 (encString "sourcePath" (lit ": " (encString (SourcePath r)
  (lit "," (line 3 (encString "targetPath" (lit ": " (encString (TargetPath r)
  (lit "," (line 3 (encString "rtUrl" (lit ": " (encString (RtUrl r)
  (line 2 (lit "}" k)))))))))))))))).

Fixpoint indMore (rs : list Result) (k : string) : string :=
  match rs with
  | [] => line 1 (lit "]" k)
  | r :: rest => lit "," (line 2 (indResult r (indMore rest k)))
  end.

Definition indResults (rs : slice Result) (k : string) : string :=
  match rs with
  | None => lit "null" k
  | Some [] => lit "[]" k
  | Some (r :: rest) => lit "[" (line 2 (indResult r (indMore rest k)))
  end.

Definition indWrapper (w : ResultsWrapper) : string :=
  lit "{" (line 1 (encString "results" (lit ": "
    (indResults (Results w) (line 0 (lit "}" EmptyString)))))).

(** ** Decoding *)

Definition isSpace (c : ascii) : bool :=
  Ascii.eqb c " " || Ascii.eqb c "009" || Ascii.eqb c "010" || Ascii.eqb c "013".

Fixpoint skipSpace (s : string) : string :=
  match s with
  | String c r => if isSpace c then skipSpace r else s
  | EmptyString => s
  end.

(** The next token is the character [c]. *)
Definition expect (c : ascii) (s : string) : option string :=
  match skipSpace s with
  | String c' r => if Ascii.eqb c' c then Some r else None
  | EmptyString => None
  end.

Definition hexval (c : ascii) : option nat :=
  let n := nat_of_ascii c in
  if (48 <=? n) && (n <=? 57) then Some (n - 48)
  else if (97 <=? n) && (n <=? 102) then Some (n - 87)
  else if (65 <=? n) && (n <=? 70) then Some (n - 55)
  else None.

Definition hex4 (a b c d : ascii) : option nat :=
  match hexval a, hexval b, hexval c, hexval d with
  | Some a, Some b, Some c, Some d => Some (((a * 16 + b) * 16 + c) * 16 + d)
  | _, _, _, _ => None
  end.

(** The UTF-8 bytes of a code point below 65536, before the text [k]. *)
Definition utf8 (n : nat) (k : string) : string :=
  if n <? 128 then String (ascii_of_nat n) k
  else if n <? 2048 then
    String (ascii_of_nat (192 + n / 64)) (String (ascii_of_nat (128 + n mod 64)) k)
  else
    String (ascii_of_nat (224 + n / 4096))
      (String (ascii_of_nat (128 + (n / 64) mod 64))
         (String (ascii_of_nat (128 + n mod 64)) k)).

Definition unescape (c : ascii) : option ascii :=
  if Ascii.eqb c quote then Some quote
  else if Ascii.eqb c backslash then Some backslash
  else if Ascii.eqb c "/" then Some "/"%char
  else if Ascii.eqb c "b" then Some "008"%char
  else if Ascii.eqb c "f" then Some "012"%char
  else if Ascii.eqb c "n" then Some "010"%char
  else if Ascii.eqb c "r" then Some "013"%char
  else if Ascii.eqb c "t" then Some "009"%char
  else None.

(** The characters of a string literal after its opening quote, and the
    text after its closing quote. *)
Fixpoint decChars (s : string) : option (string * string) :=
  match s with
  | EmptyString => None
  | String c r =>
      if Ascii.eqb c quote then Some (EmptyString, r)
      else if Ascii.eqb c backslash then
        match r with
        | EmptyString => None
        | String e r1 =>
            if Ascii.eqb e "u" then
              match r1 with
              | String h1 (String h2 (String h3 (String h4 r2))) =>
                  match hex4 h1 h2 h3 h4, decChars r2 with
                  | Some n, Some (t, rest) => Some (utf8 n t, rest)
                  | _, _ => None
                  end
              | _ => None
              end
            else
              match unescape e, decChars r1 with
              | Some c', Some (t, rest) => Some (String c' t, rest)
              | _, _ => None
              end
        end
      else if Nat.ltb (nat_of_ascii c) 32 then None
      else
        match decChars r with
        | Some (t, rest) => Some (String c t, rest)
        | None => None
        end
  end.

Definition decString (s : string) : option (string * string) :=
  match expect quote s with
  | Some r => decChars r
  | None => None
  end.

(** The member name [key] and its colon. *)
Definition decKey (key : string) (s : string) : option string :=
  match decString s with
  | Some (name, r) => if String.eqb name key then expect ":" r else None
  | None => None
  end.

Definition decField (key : string) (s : string) : option (string * string) :=
  match decKey key s with
  | Some r => decString r
  | None => None
  end.

Definition decResult (s : string) : option (Result * string) :=
  match expect "{" s with
  | None => None
  | Some r =>
      match decField "sourcePath" r with
      | None => None
      | Some (src, r) =>
          match expect "," r with
          | None => None
          | Some r =>
              match decField "targetPath" r with
              | None => None
              | Some (tgt, r) =>
                  match expect "," r with
                  | None => None
                  | Some r =>
                      match decField "rtUrl" r with
                      | None => None
                      | Some (url, r) =>
                          match expect "}" r with
                          | None => None
                          | Some r => Some (mkResult src tgt url, r)
                          end
                      end
                  end
              end
          end
      end
  end.

(** The elements after the first one, up to the closing bracket. *)
Fixpoint decMore (fuel : nat) (s : string) : option (list Result * string) :=
  match fuel with
  | O => None
  | S fuel =>
      match skipSpace s with
      | String c r =>
          if Ascii.eqb c "]" then Some ([], r)
          else if Ascii.eqb c "," then
            match decResult r with
            | Some (x, r) =>
                match decMore fuel r with
                | Some (xs, r) => Some (x :: xs, r)
                | None => None
                end
            | None => None
            end
          else None
      | EmptyString => None
      end
  end.

Definition decResults (s : string) : option (slice Result * string) :=
  match skipSpace s with
  | String "n" (String "u" (String "l" (String "l" r))) => Some (None, r)
  | String "[" r =>
      match skipSpace r with
      | String "]" r => Some (Some [], r)
      | _ =>
          match decResult r with
          | Some (x, r) =>
              match decMore (String.length r) r with
              | Some (xs, r) => Some (Some (x :: xs), r)
              | None => None
              end
          | None => None
          end
      end
  | _ => None
  end.

Definition decWrapper (s : string) : option ResultsWrapper :=
  match expect "{" s with
  | None => None
  | Some r =>
      match decKey "results" r with
      | None => None
      | Some r =>
          match decResults r with
          | None => None
          | Some (rs, r) =>
              match expect "}" r with
              | Some r =>
                  match skipSpace r with
                  | EmptyString => Some (mkWrapper rs)
                  | String _ _ => None
                  end
              | None => None
              end
          end
      end
  end.

#[export] Instance codec : Json := {|
  Unmarshal b :=
    match decWrapper b with
    | Some w => (w, None)
    | None => (zero, Some SyntaxError)
    end;
  MarshalIndent w := (indWrapper w, None);
  Marshal w := (encWrapper w, None);
  portable _ := True
|}.

End RefJson.

(* ===================================================================== *)
(** * Concrete runs of the store                                         *)
(* ===================================================================== *)

Module StoreRuns.
Import Go Cliutils RefJson.

Definition calm : Call -> option Fault := fun _ => None.

Definition gh0 : GitHubActionSummary :=
  mkSummary "/Users/runner/.jfrog/jfrog-github-summary" "data.json" None.

Definition r1 : Result := mkResult "build/a.txt" "repo/x/a.txt" "https://rt.example/".
Definition r2 : Result := mkResult "build/b.txt" "repo/x/b.txt" "https://rt.example/".
Definition r3 : Result := mkResult "build/c.txt" "repo/y/c.txt" "https://rt.example/".

Definition frag1 : string := "/tmp/jfrog/results-1.json".
Definition frag2 : string := "/tmp/jfrog/results-2.json".
Definition absent : string := "/tmp/jfrog/results-3.json".

Definition reading (paths : list string) : option CommandResult :=
  Some (mkCommandResult (Some (mkReader paths))).

(** No store file yet; two fragment files written by two commands. *)
Definition fresh : World :=
  mkWorld {[ frag1 := File (encWrapper (mkWrapper (Some [r1])));
             frag2 := File (indWrapper (mkWrapper (Some [r2; r3]))) ]}
          ∅ calm [] ∅.

Definition after1 : World := (AppendResult gh0 (reading [frag1]) fresh).2.
Definition after2 : World := (AppendResult gh0 (reading [frag2]) after1).2.

(** The store file holds text that is not JSON; two commands have written
    their fragment files. *)
Definition corrupt : World :=
  mkWorld {[ getDataFilePath gh0 := File "<<<<<<< not json";
             frag1 := File (encWrapper (mkWrapper (Some [r1])));
             frag2 := File (indWrapper (mkWrapper (Some [r2; r3]))) ]}
          ∅ calm [] ∅.

(** The store file holds a record and cannot be read, though it can be
    written; a command has written a fragment file, which can be read. *)
Definition unreadable : World :=
  mkWorld {[ getDataFilePath gh0 := File (indWrapper (mkWrapper (Some [r1])));
             frag2 := File (indWrapper (mkWrapper (Some [r2; r3]))) ]} ∅
          (fun c => match c with
                    | CReadFile name =>
                        if String.eqb name (getDataFilePath gh0) then Some EACCES
                        else None
                    | _ => None
                    end)
          [] ∅.

(** The store file as [createTempFile] leaves it. *)
Definition initialised : World :=
  (createTempFile (getDataFilePath gh0) (mkWrapper (Some [])) fresh).2.

End StoreRuns.

(* ===================================================================== *)
(** * Concrete runs of the aggregator                                    *)
(* ===================================================================== *)

Module SummaryRuns.
Import Go Summary.
Local Open Scope go_scope.

(** Stand-ins for the collaborators: the server answers, the security
    scan data cannot be collected, and the other two sections write their
    markdown file (the build-info one into its subdirectory). *)
Definition details (_ : unit) : M (string * error) := ret ("https://rt.example/", None).
Definition manager (_ : string) : M (unit * error) := ret (tt, None).
Definition version (_ : unit) : M (Z * error) := ret (7%Z, None).
Definition init (_ : string) (_ : Z) : M error := ret None.

Definition securitySummary : M (MarkdownSection * error) :=
  ret (Security, Some (ErrorString "scan results are not readable")).
Definition buildInfoSummary : M (MarkdownSection * error) := ret (BuildInfo, None).
Definition uploadSummary : M (MarkdownSection * error) := ret (Upload, None).

Definition writeSection (section : MarkdownSection) : M error :=
  fun w =>
    let dir := Join [outputDir w; JfrogCliSummaryDir; section] in
    (None,
     set_files (<[Join [dir; MarkdownFileName] :=
                    File ("## " +:+ section +:+ PathTree.newline)]>
                (<[dir := Dir [MarkdownFileName]]> (files w))) w).

Definition indexed (_ : MarkdownSection)
  : M (list (Index * list (string * string)) * error) :=
  ret ([(BuildScan, [("my-build", "build-scans/1.json")])], None).

Definition finalize : M error :=
  GenerateSummaryMarkdown unit string unit MarkdownSection (fun url => url)
    details manager version init
    securitySummary buildInfoSummary uploadSummary writeSection indexed tt.

Definition invoke : MarkdownSection -> M error :=
  invokeSectionMarkdownGeneration MarkdownSection
    securitySummary buildInfoSummary uploadSummary writeSection indexed.

Definition out : string := "/tmp/summary".

Definition quietly : Call -> option Fault := fun _ => None.

(** A security markdown file is left from an earlier finalize call. *)
Definition stale : World :=
  mkWorld {[ Join [out; JfrogCliSummaryDir; Security; MarkdownFileName]
               := File ("## old scan" +:+ PathTree.newline) ]}
          {[ SummaryOutputDirPathEnv := out ]} quietly [] ∅.

(** Nothing on disk, and collaborators that all fail. *)
Definition failing_ : M (MarkdownSection * error) :=
  ret (EmptyString, Some (ErrorString "no data")).

Definition finalizeNothing : M error :=
  GenerateSummaryMarkdown unit string unit MarkdownSection (fun url => url)
    details manager version init
    failing_ failing_ failing_ writeSection indexed tt.

Definition bare : World :=
  mkWorld ∅ {[ SummaryOutputDirPathEnv := out ]} quietly [] ∅.

(** The report cannot be created; every close succeeds. *)
Definition readOnly : World :=
  mkWorld ∅ {[ SummaryOutputDirPathEnv := out ]}
          (fun c => match c with CCreate _ => Some EACCES | _ => None end) [] ∅.

(** As [stale], with the security markdown file unreadable. *)
Definition locked : World :=
  mkWorld (files stale) (env stale)
          (fun c => match c with CReadFile _ => Some EACCES | _ => None end) [] ∅.

(** The disk is full: the report is created, writing to it fails. *)
Definition full : World :=
  mkWorld ∅ {[ SummaryOutputDirPathEnv := out ]}
          (fun c => match c with CWriteString _ => Some ENOSPC | _ => None end) [] ∅.

(** A report from an earlier finalize call is there. *)
Definition reported : World :=
  mkWorld {[ Join [out; JfrogCliSummaryDir; MarkdownFileName]
               := File "# the report of the call before, longer than the new one" ]}
          {[ SummaryOutputDirPathEnv := out ]} quietly [] ∅.

(** The build-info section has written into its subdirectory. *)
Definition built : World := (writeSection BuildInfo bare).2.

Definition oldScan : string := "## old scan" +:+ PathTree.newline.
Definition buildInfoText : string := "## build-info" +:+ PathTree.newline.

Definition summary : Cliutils.GitHubActionSummary :=
  Cliutils.mkSummary "/Users/runner/.jfrog/jfrog-github-summary" "data.json"
    (Some (PathTree.addPath "repo/x/a.txt" PathTree.empty)).

End SummaryRuns.

(* ===================================================================== *)
(** * Concrete runs of the entry point                                   *)
(* ===================================================================== *)

Module EntryRuns.
Import Go Cliutils RefJson StoreRuns.

(** A stand-in for the directory creation: a directory that is there is
    kept, a missing one is made, a file in its place is an error. *)
Definition mkdir (path : string) : M error :=
  fun w =>
    match files w !! path with
    | Some (Dir _) => (None, w)
    | Some (File _) => (Some (PathError "mkdir" path ENOTDIR), w)
    | None => (None, set_files (<[path := Dir []]> (files w)) w)
    end.

(** A step of a GitHub Actions job: the variable is set, the store holds
    one record from an earlier step, an old markdown file is there, and
    the command has written one fragment file. *)
Definition step : World :=
  mkWorld {[ getDataFilePath gh0 := File (indWrapper (mkWrapper (Some [r1])));
             summaryPath gh0 := File "old summary";
             frag2 := File (encWrapper (mkWrapper (Some [r2; r3]))) ]}
          {[ githubActionsEnv := "true" ]} calm [] ∅.

(** The same step on a machine where nothing can be removed. *)
Definition sticky : World :=
  mkWorld (files step) (env step)
          (fun c => match c with CRemove _ => Some EACCES | _ => None end) [] ∅.

(** The same files outside GitHub Actions. *)
Definition local : World := mkWorld (files step) ∅ calm [] ∅.

Definition withTree : GitHubActionSummary :=
  mkSummary homeDir "data.json" (Some (uploadedTree [r1; r2; r3])).

Definition gh2 : Cliutils2.GitHubActionSummary :=
  Cliutils2.mkSummary homeDir "data.json" "tree.json" None.

End EntryRuns.

(* ===================================================================== *)
(** * Facts about the runtime model                                      *)
(* ===================================================================== *)

Module GoFacts.
Import Go.

Lemma elems_append {A} (s : slice A) (xs : list A) :
  elems (append s xs) = elems s ++ xs.
Proof. destruct xs; simpl; [by rewrite app_nil_r | done]. Qed.

Lemma append_nil {A} (s : slice A) : append s [] = s.
Proof. done. Qed.

Lemma ReadFile_world name w : (ReadFile name w).2 = w.
Proof.
  unfold ReadFile. destruct (faults w _); [done |].
  by destruct (files w !! name) as [[?|?]|].
Qed.

Lemma ReadFile_file name b w :
  faults w (CReadFile name) = None -> files w !! name = Some (File b) ->
  ReadFile name w = ((b, None), w).
Proof. intros Hq Hf. unfold ReadFile. by rewrite Hq, Hf. Qed.

Lemma ReadFile_missing name w :
  faults w (CReadFile name) = None -> files w !! name = None ->
  ReadFile name w = ((EmptyString, Some (PathError "open" name ENOENT)), w).
Proof. intros Hq Hf. unfold ReadFile. by rewrite Hq, Hf. Qed.

Lemma WriteFile_ok name data w :
  faults w (CWriteFile name) = None ->
  (forall es, files w !! name <> Some (Dir es)) ->
  WriteFile name data w = (None, set_files (<[name := File data]> (files w)) w).
Proof.
  intros Hq Hd. unfold WriteFile. rewrite Hq.
  destruct (files w !! name) as [[?|es]|] eqn:E; try done.
  by destruct (Hd es).
Qed.

Lemma append_assoc (a b c : string) : (a +:+ b) +:+ c = a +:+ (b +:+ c).
Proof.
  induction a as [|x a IH]; [done |].
  change (String x ((a +:+ b) +:+ c) = String x (a +:+ (b +:+ c))). by rewrite IH.
Qed.

Lemma string_length_0 (b : string) :
  Nat.leb (String.length b) 0 = true <-> b = EmptyString.
Proof. destruct b; simpl; split; intros; done. Qed.

End GoFacts.

(* ===================================================================== *)
(** * The result store: load and append                                  *)
(* ===================================================================== *)

Module StoreProps.
Import Go GoFacts Cliutils.

Section WithCodec.
Context `{Json}.

Lemma readFiles_world paths rc w : (readFiles paths rc w).2 = w.
Proof.
  revert rc. induction paths as [|file rest IH]; intros rc; [done |].
  simpl. unfold bind. pose proof (ReadFile_world file w) as Hw.
  destruct (ReadFile file w) as [[b err] w1]. simpl in Hw. subst w1.
  destruct err; [done |].
  destruct (Unmarshal b) as [sw [e|]]; [done | apply IH].
Qed.

Lemma readResult_world result w : (readResult result w).2 = w.
Proof.
  destruct result as [[[reader|]]|]; simpl; try done. apply readFiles_world.
Qed.

(** The loop stops at the first fragment file that fails, with its error. *)
Lemma readFiles_first_error good bad rest rc e w :
  Forall (fun f => fragmentError f w = None) good ->
  fragmentError bad w = Some e ->
  exists rc', readFiles (good ++ bad :: rest) rc w = ((rc', Some e), w).
Proof.
  intros Hgood Hbad. revert rc.
  induction Hgood as [|file good Hfile _ IH]; intros rc; simpl; unfold bind.
  - unfold fragmentError in Hbad.
    pose proof (ReadFile_world bad w) as Hw.
    destruct (ReadFile bad w) as [[b err] w1]. simpl in *. subst w1.
    destruct err as [e'|].
    + inversion Hbad; subst. by eexists.
    + destruct (Unmarshal b) as [sw err]. simpl in Hbad. subst err. by eexists.
  - unfold fragmentError in Hfile.
    pose proof (ReadFile_world file w) as Hw.
    destruct (ReadFile file w) as [[b err] w1]. simpl in *. subst w1.
    destruct err as [e'|]; [done |].
    destruct (Unmarshal b) as [sw err]. simpl in Hfile. subst err. apply IH.
Qed.

(** What [loadAndMarshalResultsFile] does to the world: it may log. *)
Lemma load_world gh w :
  let w' := (loadAndMarshalResultsFile gh w).2 in
  files w' = files w /\ faults w' = faults w /\ env w' = env w.
Proof.
  unfold loadAndMarshalResultsFile, bind.
  pose proof (ReadFile_world (getDataFilePath gh) w) as Hw.
  destruct (ReadFile _ w) as [[b err] w1]. simpl in Hw. subst w1.
  destruct (bool_decide (err <> None) && negb (IsNotExist err)); [done |].
  destruct (String.length b <=? 0); [done |].
  by destruct (Unmarshal b).
Qed.

(** [AppendResult] after the fragment files were read: whatever the load
    gave, error or not, is extended and written. *)
Lemma AppendResult_unfold gh result rc w :
  (readResult result w).1 = (rc, None) ->
  AppendResult gh result w =
    let '((targetWrapper, _, _), w1) := loadAndMarshalResultsFile gh w in
    let '(targetBytes, err) :=
      MarshalIndent (mkWrapper (append (Results targetWrapper) (elems rc))) in
    match err with
    | Some _ => (err, w1)
    | None =>
        let '(err, w2) := WriteFile (getDataFilePath gh) targetBytes w1 in
        (err, w2)
    end.
Proof.
  intros Hread. unfold AppendResult, bind.
  pose proof (readResult_world result w) as Hw.
  destruct (readResult result w) as [[rc' err] w0]. simpl in *.
  inversion Hread; subst. clear Hread.
  destruct (loadAndMarshalResultsFile gh w) as [[[tw tb] lerr] w1].
  destruct (MarshalIndent _) as [bytes [e|]]; [done |].
  destruct (WriteFile _ bytes w1) as [[e|] w2]; done.
Qed.

(** An empty store file loads as the empty wrapper, without error. *)
Lemma load_empty_store gh w :
  faults w (CReadFile (getDataFilePath gh)) = None ->
  files w !! getDataFilePath gh = Some (File EmptyString) ->
  (loadAndMarshalResultsFile gh w).1 = (zero, EmptyString, None).
Proof.
  intros Hq Hf. unfold loadAndMarshalResultsFile, bind.
  by rewrite (ReadFile_file _ _ _ Hq Hf).
Qed.

(** A store file with bytes loads as the decoder says: its error is the
    decoder's error. *)
Lemma load_decodes gh w b :
  faults w (CReadFile (getDataFilePath gh)) = None ->
  files w !! getDataFilePath gh = Some (File b) ->
  b <> EmptyString ->
  (loadAndMarshalResultsFile gh w).1 = ((Unmarshal b).1, b, (Unmarshal b).2).
Proof.
  intros Hq Hf Hb. unfold loadAndMarshalResultsFile, bind.
  rewrite (ReadFile_file _ _ _ Hq Hf). simpl.
  destruct (String.length b <=? 0) eqn:E.
  - by apply string_length_0 in E.
  - by destruct (Unmarshal b).
Qed.

(** A store file that is not there: the read fails with file-not-found,
    the guard lets that error through, the bytes are empty, and the bare
    return hands the error of the read back with the empty wrapper. *)
Lemma load_missing_store gh w :
  faults w (CReadFile (getDataFilePath gh)) = None ->
  files w !! getDataFilePath gh = None ->
  (loadAndMarshalResultsFile gh w).1 =
    (zero, EmptyString, Some (PathError "open" (getDataFilePath gh) ENOENT)).
Proof.
  intros Hq Hf. unfold loadAndMarshalResultsFile, bind.
  by rewrite (ReadFile_missing _ _ Hq Hf).
Qed.

(** C5, at the input where the code departs from it: loading a store file
    that does not exist gives the empty wrapper, and with it an error that
    is not nil, the file-not-found error of the read. *)
Theorem load_missing_store_returns_error gh w :
  faults w (CReadFile (getDataFilePath gh)) = None ->
  files w !! getDataFilePath gh = None ->
  exists e,
    (loadAndMarshalResultsFile gh w).1 = (zero, EmptyString, Some e)
    /\ IsNotExist (Some e) = true.
Proof.
  intros Hq Hf. eexists. split; [by apply load_missing_store | done].
Qed.

(** Among fragment files of which one fails there is a first that fails. *)
Lemma first_failure paths w :
  Exists (fun f => fragmentError f w <> None) paths ->
  exists good bad rest e,
    paths = good ++ bad :: rest
    /\ Forall (fun f => fragmentError f w = None) good
    /\ fragmentError bad w = Some e.
Proof.
  induction paths as [|f paths IH]; intros Hex; [by inversion Hex |].
  destruct (fragmentError f w) as [e|] eqn:E.
  - by exists [], f, paths, e.
  - inversion Hex as [? ? Hf | ? ? Hrest]; subst; [congruence |].
    destruct (IH Hrest) as (good & bad & rest & e & -> & Hgood & Hbad).
    exists (f :: good), bad, rest, e. repeat split; [by constructor | done].
Qed.

(** C6: when reading or decoding any one of the fragment files fails, the
    append returns the error of the first file that fails and the world,
    the store file in it, is as before the call: nothing is merged. *)
Theorem AppendResult_aborts_on_fragment_failure gh paths w :
  Exists (fun f => fragmentError f w <> None) paths ->
  exists good bad rest e,
    paths = good ++ bad :: rest
    /\ Forall (fun f => fragmentError f w = None) good
    /\ fragmentError bad w = Some e
    /\ AppendResult gh (Some (mkCommandResult (Some (mkReader paths)))) w = (Some e, w).
Proof.
  intros Hex.
  destruct (first_failure paths w Hex) as (good & bad & rest & e & -> & Hgood & Hbad).
  exists good, bad, rest, e. repeat split; [done | done |].
  unfold AppendResult, bind. simpl.
  destruct (readFiles_first_error good bad rest None e w Hgood Hbad) as [rc' ->].
  done.
Qed.

End WithCodec.

Section WithLaws.
Context `{JsonLaws}.

Lemma load_unloadable gh w :
  unloadable gh w ->
  exists b e, (loadAndMarshalResultsFile gh w).1 = (zero, b, Some e).
Proof.
  intros [(e & He & Hne) | (b & Hb & Hnb & Hsyn)];
    unfold loadAndMarshalResultsFile, bind;
    destruct (ReadFile _ w) as [[b' err] w1].
  - simpl in He. subst err. rewrite Hne. simpl. by eexists _, _.
  - simpl in Hb. inversion Hb; subst. simpl.
    destruct (String.length b <=? 0) eqn:E; [by apply string_length_0 in E |].
    destruct (Unmarshal b) as [tw err] eqn:EU. simpl in Hsyn. subst err.
    apply Unmarshal_syntax in EU. subst tw. by eexists _, _.
Qed.

(** C8: when the store file cannot be loaded (a read error other than
    file-not-found, or bytes that are not JSON), an append whose fragment
    files were read and whose write goes through returns no error, and the
    store file then holds the encoding of the newly read Results alone. *)
Theorem AppendResult_discards_unloadable_store gh result rc w :
  unloadable gh w ->
  (readResult result w).1 = (rc, None) ->
  faults w (CWriteFile (getDataFilePath gh)) = None ->
  (forall es, files w !! getDataFilePath gh <> Some (Dir es)) ->
  exists w',
    AppendResult gh result w = (None, w')
    /\ files w' = <[getDataFilePath gh :=
                      File (MarshalIndent (mkWrapper (append None (elems rc)))).1]>
                   (files w).
Proof.
  intros Hload Hread Hq Hdir.
  rewrite (AppendResult_unfold gh result rc w Hread).
  destruct (load_unloadable gh w Hload) as (b & e & Hl).
  pose proof (load_world gh w) as (Hfiles & Hfaults & _).
  destruct (loadAndMarshalResultsFile gh w) as [[[tw tb] lerr] w1].
  simpl in *. inversion Hl; subst. simpl.
  pose proof (MarshalIndent_ok (mkWrapper (append None (elems rc)))) as Hm.
  destruct (MarshalIndent _) as [bytes merr]. simpl in *. subst merr.
  rewrite WriteFile_ok; [| by rewrite Hfaults | by rewrite Hfiles].
  eexists. split; [done |]. simpl. by rewrite Hfiles.
Qed.

Lemma MarshalIndent_nonempty w :
  Forall portable (elems (Results w)) -> (MarshalIndent w).1 <> EmptyString.
Proof.
  intros Hp Hb. pose proof (Unmarshal_MarshalIndent w Hp) as Hu.
  rewrite Hb in Hu. pose proof Unmarshal_empty as He. rewrite Hu in He. done.
Qed.

Lemma readFiles_portable paths rc0 rc w :
  Forall portable (elems rc0) ->
  (readFiles paths rc0 w).1 = (rc, None) ->
  Forall portable (elems rc).
Proof.
  revert rc0. induction paths as [|file rest IH]; intros rc0 Hp Hr.
  - simpl in Hr. by inversion Hr; subst.
  - simpl in Hr. unfold bind in Hr.
    pose proof (ReadFile_world file w) as Hw.
    destruct (ReadFile file w) as [[b err] w1]. simpl in Hw. subst w1.
    destruct err; [done |].
    destruct (Unmarshal b) as [sw [e|]] eqn:EU; [done |].
    eapply IH; [| exact Hr].
    rewrite elems_append. apply Forall_app. split; [done |].
    by apply (Unmarshal_portable b).
Qed.

Lemma readResult_portable result rc w :
  (readResult result w).1 = (rc, None) -> Forall portable (elems rc).
Proof.
  destruct result as [[[reader|]]|]; simpl; intros Hr.
  - apply (readFiles_portable (GetFilesPaths reader) None rc w); [constructor | done].
  - by inversion Hr.
  - by inversion Hr.
Qed.

(** A store that holds [prev] loads as [prev]; the only error the load may
    then carry is the file-not-found of a store file that is not there. *)
Lemma persisted_load gh w prev :
  persisted gh w = Some prev ->
  exists tw b err,
    (loadAndMarshalResultsFile gh w).1 = (tw, b, err)
    /\ elems (Results tw) = prev
    /\ Forall portable prev
    /\ (is_Some (files w !! getDataFilePath gh) -> err = None)
    /\ (forall es, files w !! getDataFilePath gh <> Some (Dir es)).
Proof.
  unfold persisted. intros Hp.
  destruct (faults w (CReadFile _)) eqn:Hq; [done |].
  destruct (files w !! getDataFilePath gh) as [[b|es]|] eqn:Hf; [| done |].
  - destruct (String.length b <=? 0) eqn:E.
    + apply string_length_0 in E. subst b. inversion Hp; subst.
      rewrite (load_empty_store gh w Hq Hf).
      eexists _, _, _. repeat split; try done.
    + assert (b <> EmptyString) as Hb by (intros ->; done).
      rewrite (load_decodes gh w b Hq Hf Hb).
      destruct (Unmarshal b) as [tw [e|]] eqn:EU; [done |].
      inversion Hp; subst. eexists _, _, _. repeat split; try done.
      by apply (Unmarshal_portable b).
  - inversion Hp; subst.
    rewrite (load_missing_store gh w Hq Hf).
    eexists _, _, _. repeat split; try done.
Qed.

Lemma WriteFile_done name data w w' :
  WriteFile name data w = (None, w') ->
  w' = set_files (<[name := File data]> (files w)) w.
Proof.
  unfold WriteFile. destruct (faults w _); [done |].
  destruct (files w !! name) as [[?|?]|]; by inversion 1.
Qed.

(** One append that returned no error, on a loadable store. *)
Lemma AppendResult_persisted gh result rc w w' prev :
  persisted gh w = Some prev ->
  (readResult result w).1 = (rc, None) ->
  AppendResult gh result w = (None, w') ->
  persisted gh w' = Some (prev ++ elems rc)
  /\ is_Some (files w' !! getDataFilePath gh).
Proof.
  intros Hp Hread.
  rewrite (AppendResult_unfold gh result rc w Hread).
  destruct (persisted_load gh w prev Hp) as (tw & b & lerr & Hl & Hel & Hport & _ & Hdir).
  assert (faults w (CReadFile (getDataFilePath gh)) = None) as Hqr.
  { unfold persisted in Hp. by destruct (faults w (CReadFile _)). }
  pose proof (load_world gh w) as (Hfiles & Hfaults & _).
  destruct (loadAndMarshalResultsFile gh w) as [[[tw' tb] lerr'] w1].
  simpl in *. inversion Hl; subst. clear Hl.
  set (tw' := mkWrapper (append (Results tw) (elems rc))).
  assert (Forall portable (elems (Results tw'))) as Hport'.
  { subst tw'. simpl. rewrite elems_append. apply Forall_app. split; [done |].
    by apply (readResult_portable result rc w). }
  pose proof (Unmarshal_MarshalIndent tw' Hport') as Hu.
  pose proof (MarshalIndent_nonempty tw' Hport') as Hne.
  destruct (MarshalIndent tw') as [bytes [e|]]; [done |]. simpl in *.
  destruct (WriteFile _ bytes w1) as [werr w2] eqn:Hwrite.
  intros Hcall. inversion Hcall; subst. apply WriteFile_done in Hwrite. subst w'.
  split.
  - unfold persisted. simpl. rewrite Hfaults, Hqr, lookup_insert_eq.
    destruct (String.length bytes <=? 0) eqn:E; [by apply string_length_0 in E |].
    rewrite Hu. subst tw'. simpl. by rewrite elems_append.
  - simpl. rewrite lookup_insert_eq. by eexists.
Qed.

Lemma appends_invariant gh w prev batches w' :
  persisted gh w = Some prev ->
  appends gh w batches w' ->
  persisted gh w' = Some (prev ++ concat batches)
  /\ (batches <> [] -> is_Some (files w' !! getDataFilePath gh)).
Proof.
  intros Hp Happ. revert prev Hp.
  induction Happ as [w | w result rc w1 batches w2 Hread Hcall Hrest IH];
    intros prev Hp.
  - simpl. rewrite app_nil_r. done.
  - destruct (AppendResult_persisted gh result rc w w1 prev Hp Hread Hcall)
      as (Hp1 & Hsome).
    destruct (IH _ Hp1) as (Hp2 & Hs2).
    split.
    + simpl. by rewrite Hp2, <- app_assoc.
    + intros _. destruct batches as [| batch batches'].
      * by inversion Hrest; subst.
      * by apply Hs2.
Qed.

(** C1: after any run of appends that returned no error, on a store that
    held [prev], the load returns [prev] followed by the batches in call
    order, each in its own order; after at least one append it returns no
    error. *)
Theorem load_after_appends gh w prev batches w' :
  persisted gh w = Some prev ->
  appends gh w batches w' ->
  exists tw b err,
    (loadAndMarshalResultsFile gh w').1 = (tw, b, err)
    /\ elems (Results tw) = prev ++ concat batches
    /\ (batches <> [] -> err = None).
Proof.
  intros Hp Happ.
  destruct (appends_invariant gh w prev batches w' Hp Happ) as (Hp' & Hs).
  destruct (persisted_load gh w' _ Hp') as (tw & b & err & Hl & Hel & _ & Herr & _).
  exists tw, b, err. repeat split; [done | done |].
  intros Hne. by apply Herr, Hs.
Qed.

(** C4, amended: an append of an empty batch rewrites a store file that
    holds the indented encoding of a wrapper with the same bytes; a store
    file that is missing or empty it fills with the encoding of the empty
    wrapper. *)
Theorem AppendResult_empty_batch gh result rc w :
  (readResult result w).1 = (rc, None) ->
  elems rc = [] ->
  faults w (CReadFile (getDataFilePath gh)) = None ->
  faults w (CWriteFile (getDataFilePath gh)) = None ->
  (forall w0,
      Forall portable (elems (Results w0)) ->
      files w !! getDataFilePath gh = Some (File (MarshalIndent w0).1) ->
      exists w', AppendResult gh result w = (None, w') /\ files w' = files w)
  /\ (files w !! getDataFilePath gh = None
      \/ files w !! getDataFilePath gh = Some (File EmptyString) ->
      exists w',
        AppendResult gh result w = (None, w')
        /\ files w' = <[getDataFilePath gh := File (MarshalIndent zero).1]> (files w)).
Proof.
  intros Hread Hempty Hqr Hqw.
  pose proof (load_world gh w) as (Hfiles & Hfaults & _).
  split.
  - intros w0 Hport Hf.
    rewrite (AppendResult_unfold gh result rc w Hread).
    pose proof (load_decodes gh w _ Hqr Hf (MarshalIndent_nonempty w0 Hport)) as Hl.
    rewrite (Unmarshal_MarshalIndent w0 Hport) in Hl.
    destruct (loadAndMarshalResultsFile gh w) as [[[tw tb] lerr] w1].
    simpl in *. inversion Hl; subst. clear Hl.
    rewrite Hempty, append_nil. destruct w0 as [rs]. simpl in *.
    pose proof (MarshalIndent_ok (mkWrapper rs)) as Hm.
    destruct (MarshalIndent (mkWrapper rs)) as [bytes merr]. simpl in *. subst merr.
    rewrite WriteFile_ok; [| by rewrite Hfaults | by rewrite Hfiles, Hf].
    eexists. split; [done |]. simpl. rewrite Hfiles. by apply insert_id.
  - intros Hf.
    rewrite (AppendResult_unfold gh result rc w Hread).
    assert (exists b e, (loadAndMarshalResultsFile gh w).1 = (zero, b, e)) as (b & e & Hl).
    { destruct Hf as [Hf | Hf].
      - rewrite (load_missing_store gh w Hqr Hf). by eexists _, _.
      - rewrite (load_empty_store gh w Hqr Hf). by eexists _, _. }
    destruct (loadAndMarshalResultsFile gh w) as [[[tw tb] lerr] w1].
    simpl in *. inversion Hl; subst. clear Hl.
    rewrite Hempty. simpl.
    pose proof (MarshalIndent_ok zero) as Hm. unfold zero in *.
    destruct (MarshalIndent (mkWrapper None)) as [bytes merr]. simpl in *. subst merr.
    rewrite WriteFile_ok; [| by rewrite Hfaults | rewrite Hfiles; by destruct Hf as [-> | ->]].
    eexists. split; [done |]. simpl. by rewrite Hfiles.
Qed.

End WithLaws.
End StoreProps.

(* ===================================================================== *)
(** * The aggregator: sections and the combined report                   *)
(* ===================================================================== *)

Module SummaryProps.
Import Go GoFacts Summary.

Lemma Stat_world name w : (Stat name w).2 = w.
Proof.
  unfold Stat. destruct (faults w _); [done |]. by destruct (files w !! name).
Qed.

Lemma ReadDir_world name w : (ReadDir name w).2 = w.
Proof.
  unfold ReadDir. destruct (faults w _); [done |].
  by destruct (files w !! name) as [[?|?]|].
Qed.

Lemma getSectionMarkdownContent_world section w :
  (getSectionMarkdownContent section w).2 = w.
Proof.
  unfold getSectionMarkdownContent, bind, Getenv.
  pose proof (Stat_world (Join [default EmptyString (env w !! SummaryOutputDirPathEnv);
                                JfrogCliSummaryDir; section; MarkdownFileName]) w) as Hs.
  destruct (Stat _ w) as [[info err] w1]. simpl in Hs. subst w1.
  destruct (IsNotExist err); [done |].
  pose proof (ReadFile_world (Join [default EmptyString (env w !! SummaryOutputDirPathEnv);
                                JfrogCliSummaryDir; section; MarkdownFileName]) w) as Hr.
  destruct (ReadFile _ w) as [[b rerr] w1]. simpl in Hr. subst w1.
  destruct rerr; [done |]. by destruct (String.length b =? 0).
Qed.

Lemma getSectionMarkdownContent_text section w :
  (getSectionMarkdownContent section w).1.2 = None ->
  (getSectionMarkdownContent section w).1.1 = sectionText section w.
Proof.
  unfold getSectionMarkdownContent, sectionText, sectionPath, outputDir, bind, Getenv.
  set (p := Join _). unfold Stat, ReadFile.
  destruct (faults w (CStat p)); simpl.
  - destruct (faults w (CReadFile p)); simpl; [done |].
    destruct (files w !! p) as [[b|es]|]; simpl; try done.
    destruct (String.length b =? 0) eqn:E; [| done].
    intros _. by destruct b.
  - destruct (files w !! p) as [[b|es]|] eqn:Hf; simpl; [| | done].
    + destruct (faults w (CReadFile p)); simpl; [done |]. rewrite Hf.
      destruct (String.length b =? 0) eqn:E; [| done].
      intros _. by destruct b.
    + destruct (faults w (CReadFile p)); simpl; [done |]. by rewrite Hf.
Qed.

Lemma combineSections_texts sections acc w :
  Forall (fun s => (getSectionMarkdownContent s w).1.2 = None) sections ->
  combineSections sections acc w =
    ((fold_left (fun text s => text +:+ sectionText s w) sections acc, None), w).
Proof.
  intros Hall. revert acc.
  induction Hall as [|s rest Hs _ IH]; intros acc; [done |].
  simpl. unfold bind.
  pose proof (getSectionMarkdownContent_world s w) as Hw.
  pose proof (getSectionMarkdownContent_text s w Hs) as Ht.
  destruct (getSectionMarkdownContent s w) as [[text err] w1].
  simpl in *. subst. apply IH.
Qed.

Lemma combineMarkdownFiles_world w : (combineMarkdownFiles w).2 = w.
Proof.
  unfold combineMarkdownFiles. generalize EmptyString.
  induction markdownSections as [|s rest IH]; intros acc; [done |].
  simpl. unfold bind.
  pose proof (getSectionMarkdownContent_world s w) as Hw.
  destruct (getSectionMarkdownContent s w) as [[text err] w1].
  simpl in Hw. subst w1. destruct err; [done | apply IH].
Qed.

Lemma saveMarkdownToFileSystem_empty w :
  saveMarkdownToFileSystem EmptyString w = (None, w).
Proof. done. Qed.

(** The upload section is not due when the build-info subdirectory is
    there with entries, or is there and is no directory. *)
Lemma shouldGenerateUploadSummary_no w :
  files w !! buildInfoPath w <> None ->
  files w !! buildInfoPath w <> Some (Dir []) ->
  exists should err,
    shouldGenerateUploadSummary w = ((should, err), w)
    /\ bool_decide (err <> None) || negb should = true
    /\ (forall es, files w !! buildInfoPath w = Some (Dir es) ->
                   faults w (CReadDir (buildInfoPath w)) = None -> err = None).
Proof.
  intros Hthere Hfull.
  unfold shouldGenerateUploadSummary, bind, Getenv.
  fold (outputDir w). fold (buildInfoPath w).
  assert (IsNotExist (Stat (buildInfoPath w) w).1.2 = false) as Hstat.
  { unfold Stat. destruct (faults w (CStat _)); [done |].
    by destruct (files w !! buildInfoPath w). }
  pose proof (Stat_world (buildInfoPath w) w) as Hw.
  destruct (Stat (buildInfoPath w) w) as [[info serr] w1].
  simpl in Hstat, Hw. subst w1. rewrite Hstat.
  unfold ReadDir.
  destruct (faults w (CReadDir _)) eqn:Hq.
  - eexists _, _. split; [reflexivity |]. split; [done |]. by intros es _ ?.
  - destruct (files w !! buildInfoPath w) as [[b|[|e es]]|] eqn:Hf; try done.
    + eexists _, _. split; [reflexivity |]. split; [done |]. by intros es ? _.
    + eexists _, _. split; [reflexivity |]. split; [done |]. done.
Qed.

Section WithCollaborators.
Variables Context ServerDetails ServiceManager CommandSummary : Type.
Variable Url : ServerDetails -> string.
Variable CreateServerDetailsWithConfigOffer : Context -> M (ServerDetails * error).
Variable CreateServiceManager : ServerDetails -> M (ServiceManager * error).
Variable GetRtMajorVersion : ServiceManager -> M (Z * error).
Variable InitMarkdownGenerationValues : string -> Z -> M error.
Variable SecurityCommandsJobSummary : M (CommandSummary * error).
Variable NewBuildInfoSummary : M (CommandSummary * error).
Variable NewUploadSummary : M (CommandSummary * error).
Variable GenerateMarkdown : CommandSummary -> M error.
Variable GetIndexedDataFilesPaths :
  CommandSummary -> M (list (Index * list (string * string)) * error).

Local Abbreviation invoke :=
  (invokeSectionMarkdownGeneration CommandSummary SecurityCommandsJobSummary
     NewBuildInfoSummary NewUploadSummary GenerateMarkdown GetIndexedDataFilesPaths).
Local Abbreviation attempt_ :=
  (attempt CommandSummary SecurityCommandsJobSummary
     NewBuildInfoSummary NewUploadSummary GenerateMarkdown GetIndexedDataFilesPaths).
Local Abbreviation generateSections_ :=
  (generateSections CommandSummary SecurityCommandsJobSummary
     NewBuildInfoSummary NewUploadSummary GenerateMarkdown GetIndexedDataFilesPaths).
Local Abbreviation extract :=
  (extractServerUrlAndVersion Context ServerDetails ServiceManager Url
     CreateServerDetailsWithConfigOffer CreateServiceManager GetRtMajorVersion).
Local Abbreviation finalize :=
  (GenerateSummaryMarkdown Context ServerDetails ServiceManager CommandSummary Url
     CreateServerDetailsWithConfigOffer CreateServiceManager GetRtMajorVersion
     InitMarkdownGenerationValues SecurityCommandsJobSummary
     NewBuildInfoSummary NewUploadSummary GenerateMarkdown GetIndexedDataFilesPaths).
Local Abbreviation generateUpload :=
  (generateUploadMarkdown CommandSummary NewUploadSummary GenerateMarkdown).

(** The loop attempts every section, in order, whatever the earlier ones
    returned. *)
Lemma generateSections_attempts sections w :
  generateSections_ sections w = (tt, fold_left (fun v s => attempt_ s v) sections w).
Proof.
  revert w. induction sections as [|s rest IH]; intros w; [done |].
  simpl. unfold bind, attempt.
  destruct (invoke s w) as [[e|] w1]; simpl; apply IH.
Qed.

(** A finalize call that gets past configuration, remote metadata and
    initialisation is the three sections attempted, their files combined,
    and the result saved. *)
Lemma GenerateSummaryMarkdown_unfold c w url ver w1 w2 :
  (ShouldGenerateSummary w).1 = true ->
  extract c w = ((url, ver, None), w1) ->
  InitMarkdownGenerationValues url ver w1 = (None, w2) ->
  finalize c w =
    let w3 := attempt_ Upload (attempt_ BuildInfo (attempt_ Security w2)) in
    let '((finalMarkdown, err), w4) := combineMarkdownFiles w3 in
    match err with
    | Some e => (Some (Errorf "error combining markdown files: %w" e), w4)
    | None => saveMarkdownToFileSystem finalMarkdown w4
    end.
Proof.
  intros Hshould Hextract Hinit.
  assert (ShouldGenerateSummary w = (true, w)) as Hs.
  { unfold ShouldGenerateSummary, bind, Getenv, ret in *. simpl in Hshould.
    by rewrite Hshould. }
  unfold GenerateSummaryMarkdown, bind. rewrite Hs. cbn [negb].
  rewrite Hextract, Hinit, generateSections_attempts.
  unfold markdownSections. cbn [fold_left].
  by destruct (combineMarkdownFiles _) as [[doc [e|]] w4].
Qed.

(** C2, amended: past configuration, remote metadata and initialisation,
    and with every section file that is there readable, the document that
    is saved is the markdown on disk of security, build-info and upload,
    in this order, as it stands after all three sections were attempted;
    a section without a file adds nothing, and a section that failed adds
    what its file holds.  Each section is attempted whatever the earlier
    ones returned, a failure being logged as a warning ([attempt]). *)
Theorem report_is_sections_on_disk c w url ver w1 w2 :
  (ShouldGenerateSummary w).1 = true ->
  extract c w = ((url, ver, None), w1) ->
  InitMarkdownGenerationValues url ver w1 = (None, w2) ->
  Forall (fun s =>
            (getSectionMarkdownContent s
               (attempt_ Upload (attempt_ BuildInfo (attempt_ Security w2)))).1.2 = None)
         markdownSections ->
  finalize c w =
    (let w3 := attempt_ Upload (attempt_ BuildInfo (attempt_ Security w2)) in
     saveMarkdownToFileSystem
       (sectionText Security w3 +:+ sectionText BuildInfo w3 +:+ sectionText Upload w3) w3)
  /\ (forall s v e,
        (invoke s v).1 = Some e ->
        logs (attempt_ s v)
        = logs (invoke s v).2
          ++ [(LWarn, [AStr "Failed to generate markdown for section %s: %v";
                       AStr s; AErr e])]).
Proof.
  intros Hshould Hextract Hinit Hread. split.
  - rewrite (GenerateSummaryMarkdown_unfold c w url ver w1 w2 Hshould Hextract Hinit).
    cbv zeta. unfold combineMarkdownFiles.
    rewrite (combineSections_texts _ _ _ Hread).
    unfold markdownSections. cbn [fold_left].
    change (EmptyString +:+ ?x) with x. by rewrite append_assoc.
  - intros s v e He. unfold attempt.
    destruct (invoke s v) as [err v1]. simpl in He. by subst err.
Qed.

(** C7: when the combined document is empty, the finalize call returns no
    error and leaves the world as the sections left it: saving the empty
    document creates no file. *)
Theorem empty_report_is_not_written c w url ver w1 w2 :
  (ShouldGenerateSummary w).1 = true ->
  extract c w = ((url, ver, None), w1) ->
  InitMarkdownGenerationValues url ver w1 = (None, w2) ->
  (combineMarkdownFiles
     (attempt_ Upload (attempt_ BuildInfo (attempt_ Security w2)))).1
    = (EmptyString, None) ->
  let w3 := attempt_ Upload (attempt_ BuildInfo (attempt_ Security w2)) in
  finalize c w = (None, w3)
  /\ saveMarkdownToFileSystem EmptyString w3 = (None, w3).
Proof.
  intros Hshould Hextract Hinit Hdoc. cbv zeta. split; [| done].
  rewrite (GenerateSummaryMarkdown_unfold c w url ver w1 w2 Hshould Hextract Hinit).
  cbv zeta.
  pose proof (combineMarkdownFiles_world
                (attempt_ Upload (attempt_ BuildInfo (attempt_ Security w2)))) as Hw.
  destruct (combineMarkdownFiles _) as [[doc err] w4].
  simpl in Hdoc, Hw. inversion Hdoc; subst. done.
Qed.

(** C3: when the build-info subdirectory is there and not empty (or is
    not a directory at all), the upload section returns before its
    collaborator is reached: the world only gains the debug line.  With
    entries in the directory and the directory readable, it returns no
    error. *)
Theorem upload_skipped_unless_buildinfo_absent w :
  files w !! buildInfoPath w <> None ->
  files w !! buildInfoPath w <> Some (Dir []) ->
  exists err,
    generateUpload w = (err, skipped w)
    /\ (forall es, files w !! buildInfoPath w = Some (Dir es) ->
                   faults w (CReadDir (buildInfoPath w)) = None -> err = None).
Proof.
  intros Hthere Hfull.
  destruct (shouldGenerateUploadSummary_no w Hthere Hfull)
    as (should & err & Hs & Hskip & Herr).
  exists err. split; [| exact Herr].
  unfold generateUploadMarkdown, bind. rewrite Hs, Hskip. reflexivity.
Qed.

End WithCollaborators.

End SummaryProps.

(* ===================================================================== *)
(** * Deferred closes                                                    *)
(* ===================================================================== *)

Module CloseProps.
Import Go GoFacts Summary Cliutils.

Lemma Close_failing name w :
  (Close (Some (mkHandle name)) w).1 = failing (CClose name) "close" name w.
Proof. done. Qed.

Lemma eqb_nonempty m : m <> EmptyString -> String.eqb m EmptyString = false.
Proof. by destruct m. Qed.

Lemma saveMarkdownToFileSystem_result m w :
  m <> EmptyString ->
  (saveMarkdownToFileSystem m w).1 = (Close (Create (reportPath w) w).1.1 w).1.
Proof.
  intros Hm. unfold saveMarkdownToFileSystem. rewrite (eqb_nonempty m Hm).
  unfold bind, Getenv, defer_assign, bind. fold (outputDir w). fold (reportPath w).
  unfold Create.
  destruct (faults w (CCreate (reportPath w))) eqn:Hq; [done |].
  destruct (files w !! reportPath w) as [[b|es]|] eqn:Hf; [| done |].
  - unfold WriteString. cbn [hname faults set_files fst snd].
    destruct (faults w (CWriteString _)); [done |].
    unfold set_files. cbn [files]. rewrite lookup_insert_eq. done.
  - unfold WriteString. cbn [hname faults set_files fst snd].
    destruct (faults w (CWriteString _)); [done |].
    unfold set_files. cbn [files]. rewrite lookup_insert_eq. done.
Qed.

Lemma Create_handle name w h :
  (Create name w).1.1 = Some h -> h = mkHandle name.
Proof.
  unfold Create. destruct (faults w _); [done |].
  destruct (files w !! name) as [[?|?]|]; simpl; congruence.
Qed.

Lemma generateMarkdown_result gh tree w :
  uploadTree gh = Some tree ->
  let summaryPath := Join [dirPath gh; "github-action-summary.md"] in
  ((generateMarkdown gh w).1 = Returns (Some ErrInvalid)
   \/ (generateMarkdown gh w).1
      = Returns (failing (CClose summaryPath) "close" summaryPath w))
  /\ (faults w (COpenFile summaryPath) = None ->
      (forall es, files w !! summaryPath <> Some (Dir es)) ->
      (generateMarkdown gh w).1
      = Returns (failing (CClose summaryPath) "close" summaryPath w)).
Proof.
  intros Htree. cbv zeta. unfold generateMarkdown. rewrite Htree.
  set (p := Join _).
  unfold bind, defer_assign_outcome, bind, log, Remove, OpenFile_append, WriteString, Close, failing, ret, set_files.
  cbn [faults files fst snd hname].
  repeat (rewrite ?lookup_delete_eq, ?lookup_insert_eq in *;
          case_match; simplify_eq; cbn [faults files fst snd hname] in * );
    (split; [by (left + right) | intros Hq Hd; try done; by edestruct Hd]).
Qed.

Lemma saveMarkdownToFileSystem_nil m w :
  m <> EmptyString -> (Create (reportPath w) w).1.1 = None ->
  (saveMarkdownToFileSystem m w).1 = Some ErrInvalid.
Proof. intros Hm Hc. by rewrite (saveMarkdownToFileSystem_result m w Hm), Hc. Qed.

(** C9, amended: the error a report write returns is the error of the
    deferred close.  When the file could not be created that is the error
    of closing no file, [ErrInvalid], not success; when it was created it
    is what closing it gives, so a failed write followed by a successful
    close returns no error and a failed close is returned after a
    successful write.  The markdown write of the store behaves the same. *)
Theorem write_error_is_close_error m w gh tree :
  m <> EmptyString ->
  uploadTree gh = Some tree ->
  let file := (Create (reportPath w) w).1.1 in
  let closing name := failing (CClose name) "close" name w in
  let summaryPath := Join [dirPath gh; "github-action-summary.md"] in
  (saveMarkdownToFileSystem m w).1 = (Close file w).1
  /\ (file = None -> (saveMarkdownToFileSystem m w).1 = Some ErrInvalid)
  /\ (file <> None -> (saveMarkdownToFileSystem m w).1 = closing (reportPath w))
  /\ ((generateMarkdown gh w).1 = Returns (Some ErrInvalid)
      \/ (generateMarkdown gh w).1 = Returns (closing summaryPath))
  /\ (faults w (COpenFile summaryPath) = None ->
      (forall es, files w !! summaryPath <> Some (Dir es)) ->
      (generateMarkdown gh w).1 = Returns (closing summaryPath)).
Proof.
  intros Hm Htree. cbv zeta.
  pose proof (saveMarkdownToFileSystem_result m w Hm) as Hsave.
  split; [exact Hsave |]. split; [| split].
  - intros Hnil. by rewrite Hsave, Hnil.
  - intros Hfile. rewrite Hsave.
    destruct ((Create (reportPath w) w).1.1) as [h|] eqn:Hh; [| done].
    by rewrite (Create_handle _ _ _ Hh).
  - exact (generateMarkdown_result gh tree w Htree).
Qed.

End CloseProps.

(* ===================================================================== *)
(** * The path tree                                                      *)
(* ===================================================================== *)

Module PathTreeProps.
Import PathTree.

Lemma enter_twice seg below cs :
  (forall n, below (below n) = below n) ->
  enter seg below (enter seg below cs) = enter seg below cs.
Proof.
  intros Hbelow. induction cs as [|[name child] others IH]; simpl.
  - by rewrite String.eqb_refl, Hbelow.
  - destruct (String.eqb name seg) eqn:E; simpl; rewrite E.
    + by rewrite Hbelow.
    + by rewrite IH.
Qed.

Lemma addSegments_twice segs n :
  addSegments segs (addSegments segs n) = addSegments segs n.
Proof.
  revert n. induction segs as [|seg rest IH]; intros n; [done |].
  simpl. f_equal. by apply enter_twice.
Qed.

(** The second insertion of a path changes nothing: no node is added. *)
Lemma addPath_twice path t : addPath path (addPath path t) = addPath path t.
Proof. apply addSegments_twice. Qed.

(** C10: a path added twice renders as the path added once, and the
    empty tree renders as the empty string. *)
Theorem addPath_idempotent path t :
  render (addPath path (addPath path t)) = render (addPath path t)
  /\ render empty = EmptyString.
Proof. split; [by rewrite addPath_twice | done]. Qed.

(** Two paths under a common first segment share its node. *)
Example render_shared_prefix :
  addPath "a/c/y.txt" (addPath "a/b/x.txt" empty)
  = Node [("a", Node [("b", Node [("x.txt", Node [])]);
                      ("c", Node [("y.txt", Node [])])])].
Proof. reflexivity. Qed.

End PathTreeProps.

(* ===================================================================== *)
(** * The codec decodes what it encodes                                  *)
(* ===================================================================== *)

Module RefJsonProps.
Import Go Cliutils RefJson.

Lemma decChars_encChar c X :
  decChars (encChar c X) =
    match decChars X with
    | Some (t, rest) => Some (String c t, rest)
    | None => None
    end.
Proof.
  destruct c as [[] [] [] [] [] [] [] []]; reflexivity.
Qed.

Lemma decChars_encChars s k : decChars (encChars s (String quote k)) = Some (s, k).
Proof.
  induction s as [|c s IH]; [done |].
  simpl encChars. by rewrite decChars_encChar, IH.
Qed.

Lemma decString_encString s k : decString (encString s k) = Some (s, k).
Proof. unfold decString, encString. simpl. apply decChars_encChars. Qed.

Lemma skipSpace_line d X : skipSpace (line d X) = skipSpace X.
Proof.
  unfold line. simpl. induction d as [|d IH]; [done |]. simpl. exact IH.
Qed.

Lemma expect_line c d X : expect c (line d X) = expect c X.
Proof. unfold expect. by rewrite skipSpace_line. Qed.

Lemma decString_line d X : decString (line d X) = decString X.
Proof. unfold decString. by rewrite expect_line. Qed.

Lemma decString_space X : decString (String " " X) = decString X.
Proof. done. Qed.

Lemma decField_line key d X : decField key (line d X) = decField key X.
Proof. unfold decField, decKey. by rewrite decString_line. Qed.

Lemma decField_enc key v k :
  decField key (encString key (String ":" (encString v k))) = Some (v, k).
Proof.
  unfold decField, decKey. rewrite decString_encString, String.eqb_refl.
  simpl. apply decString_encString.
Qed.

Lemma decField_ind key v k :
  decField key (encString key (lit ": " (encString v k))) = Some (v, k).
Proof.
  unfold decField, decKey. rewrite decString_encString, String.eqb_refl.
  simpl. apply decString_encString.
Qed.

Lemma expect_hit c X : isSpace c = false -> expect c (String c X) = Some X.
Proof. intros Hc. unfold expect. simpl. by rewrite Hc, Ascii.eqb_refl. Qed.

Lemma lit1 c X : lit (String c EmptyString) X = String c X.
Proof. done. Qed.
Lemma lit2 c d X : lit (String c (String d EmptyString)) X = String c (String d X).
Proof. done. Qed.

Lemma expect_colon_space X : expect ":" (String ":" (String " " X)) = Some (String " " X).
Proof. done. Qed.

Lemma decResult_enc r k : decResult (encResult r k) = Some (r, k).
Proof.
  destruct r as [src tgt url]. unfold decResult, encResult.
  cbn [SourcePath TargetPath RtUrl].
  rewrite !lit1.
  rewrite expect_hit by done.
  rewrite decField_enc. rewrite expect_hit by done.
  rewrite decField_enc. rewrite expect_hit by done.
  rewrite decField_enc. by rewrite expect_hit.
Qed.

Lemma decResult_ind r k : decResult (indResult r k) = Some (r, k).
Proof.
  destruct r as [src tgt url]. unfold decResult, indResult.
  cbn [SourcePath TargetPath RtUrl].
  rewrite !lit1.
  rewrite expect_hit by done.
  rewrite decField_line, decField_ind. rewrite expect_hit by done.
  rewrite decField_line, decField_ind. rewrite expect_hit by done.
  rewrite decField_line, decField_ind.
  rewrite expect_line. by rewrite expect_hit.
Qed.

Lemma decResult_line d X : decResult (line d X) = decResult X.
Proof. unfold decResult. by rewrite expect_line. Qed.

Lemma decMore_step fuel c X :
  isSpace c = false ->
  decMore (S fuel) (String c X) =
    if Ascii.eqb c "]" then Some ([], X)
    else if Ascii.eqb c "," then
      match decResult X with
      | Some (x, r) =>
          match decMore fuel r with
          | Some (xs, r) => Some (x :: xs, r)
          | None => None
          end
      | None => None
      end
    else None.
Proof. intros Hc. cbn [decMore skipSpace]. by rewrite Hc. Qed.

Lemma decMore_line fuel d X : decMore fuel (line d X) = decMore fuel X.
Proof. destruct fuel; [done |]. cbn [decMore]. by rewrite skipSpace_line. Qed.

Lemma decMore_enc rs k fuel :
  length rs < fuel -> decMore fuel (encMore rs k) = Some (rs, k).
Proof.
  revert fuel. induction rs as [|r rs IH]; intros [|fuel] Hf; simpl in Hf; try lia.
  - done.
  - cbn [encMore]. rewrite lit1, decMore_step by done. cbn [Ascii.eqb Bool.eqb].
    by rewrite decResult_enc, IH by lia.
Qed.

Lemma decMore_ind rs k fuel :
  length rs < fuel -> decMore fuel (indMore rs k) = Some (rs, k).
Proof.
  revert fuel. induction rs as [|r rs IH]; intros [|fuel] Hf; simpl in Hf; try lia.
  - cbn [indMore]. by rewrite decMore_line, lit1, decMore_step.
  - cbn [indMore]. rewrite lit1, decMore_step by done. cbn [Ascii.eqb Bool.eqb].
    by rewrite decResult_line, decResult_ind, IH by lia.
Qed.

Lemma length_encChar c k : String.length k <= String.length (encChar c k).
Proof.
  unfold encChar.
  repeat match goal with |- context [if ?b then _ else _] => destruct b end;
    simpl; lia.
Qed.

Lemma length_encChars s k : String.length k <= String.length (encChars s k).
Proof.
  induction s as [|c s IH]; simpl; [lia |].
  pose proof (length_encChar c (encChars s k)). lia.
Qed.

Lemma length_encString s k : String.length k < String.length (encString s k).
Proof.
  unfold encString. simpl.
  pose proof (length_encChars s (String quote k)). simpl in *. lia.
Qed.

Lemma length_line d k : String.length k < String.length (line d k).
Proof.
  unfold line. cbn [String.length]. induction d as [|d IH].
  - change (PathTree.indentation "  " 0 +:+ k) with k. lia.
  - change (PathTree.indentation "  " (S d) +:+ k)
      with (String " " (String " " (PathTree.indentation "  " d +:+ k))).
    cbn [String.length]. lia.
Qed.

Ltac measure :=
  repeat match goal with
  | |- context [encString ?s ?k] =>
      pose proof (length_encString s k); generalize dependent (encString s k); intros
  | |- context [line ?d ?k] =>
      pose proof (length_line d k); generalize dependent (line d k); intros
  | _ : context [encString ?s ?k] |- _ =>
      pose proof (length_encString s k); generalize dependent (encString s k); intros
  | _ : context [line ?d ?k] |- _ =>
      pose proof (length_line d k); generalize dependent (line d k); intros
  end;
  cbn [String.length] in *; lia.

Lemma length_encResult r k : String.length k < String.length (encResult r k).
Proof. unfold encResult. rewrite !lit1. measure. Qed.

Lemma length_indResult r k : String.length k < String.length (indResult r k).
Proof. unfold indResult. rewrite !lit1, !lit2. measure. Qed.

Lemma length_encMore rs k : length rs < String.length (encMore rs k).
Proof.
  induction rs as [|r rs IH]; cbn [encMore length]; rewrite lit1; cbn [String.length].
  - lia.
  - pose proof (length_encResult r (encMore rs k)). lia.
Qed.

Lemma length_indMore rs k : length rs < String.length (indMore rs k).
Proof.
  induction rs as [|r rs IH]; cbn [indMore length].
  - pose proof (length_line 1 (lit "]" k)). lia.
  - rewrite lit1. cbn [String.length].
    pose proof (length_line 2 (indResult r (indMore rs k))).
    pose proof (length_indResult r (indMore rs k)). lia.
Qed.

Lemma skipSpace_hit c X : isSpace c = false -> skipSpace (String c X) = String c X.
Proof. intros Hc. cbn [skipSpace]. by rewrite Hc. Qed.

Lemma decResults_enc rs k : decResults (encResults rs k) = Some (rs, k).
Proof.
  destruct rs as [[|r rs]|]; [done | | done].
  unfold decResults, encResults. rewrite lit1, skipSpace_hit by done.
  cbn match. unfold encResult at 1. rewrite lit1 at 1.
  rewrite skipSpace_hit by done. cbn match.
  change (String "{" ?X) with (lit "{" X).
  rewrite decResult_enc, decMore_enc; [done | apply length_encMore].
Qed.

Lemma decResults_ind rs k : decResults (indResults rs k) = Some (rs, k).
Proof.
  destruct rs as [[|r rs]|]; [done | | done].
  unfold decResults, indResults. rewrite lit1, skipSpace_hit by done.
  cbn match. rewrite skipSpace_line.
  unfold indResult at 1. rewrite lit1 at 1.
  rewrite skipSpace_hit by done. cbn match.
  change (String "{" ?X) with (lit "{" X).
  rewrite decResult_line.
  change (lit "{" ?X) with (String "{" X).
  change (String "{" (line 3 ?X)) with (lit "{" (line 3 X)).
  rewrite decResult_ind, decMore_ind; [done | apply length_indMore].
Qed.

Lemma decKey_enc key k : decKey key (encString key (String ":" k)) = Some k.
Proof.
  unfold decKey. rewrite decString_encString, String.eqb_refl.
  by rewrite expect_hit.
Qed.

Lemma decKey_line key d X : decKey key (line d X) = decKey key X.
Proof. unfold decKey. by rewrite decString_line. Qed.

Lemma decResults_space X : decResults (String " " X) = decResults X.
Proof. done. Qed.

Lemma decWrapper_enc w : decWrapper (encWrapper w) = Some w.
Proof.
  destruct w as [rs]. unfold decWrapper, encWrapper. cbn [Results].
  rewrite !lit1, expect_hit by done.
  rewrite decKey_enc, decResults_enc. by rewrite expect_hit.
Qed.

Lemma decWrapper_ind w : decWrapper (indWrapper w) = Some w.
Proof.
  destruct w as [rs]. unfold decWrapper, indWrapper. cbn [Results].
  rewrite !lit1, lit2, expect_hit by done.
  rewrite decKey_line, decKey_enc, decResults_space, decResults_ind.
  rewrite expect_line. by rewrite expect_hit.
Qed.

#[export] Instance codec_laws : JsonLaws.
Proof.
  split.
  - done.
  - intros w _. cbn [Unmarshal MarshalIndent codec fst]. by rewrite decWrapper_ind.
  - intros b w _. by apply Forall_forall.
  - done.
  - intros b w. cbn [Unmarshal codec]. destruct (decWrapper b); [done |].
    by inversion 1.
Qed.

End RefJsonProps.

(* ===================================================================== *)
(** * The store on concrete runs                                         *)
(* ===================================================================== *)

Module StoreChecks.
Import Go GoFacts Cliutils RefJson RefJsonProps StoreProps StoreRuns.

Lemma load_after_appends_witness :
  exists tw b err,
    (loadAndMarshalResultsFile gh0 after2).1 = (tw, b, err)
    /\ elems (Results tw) = [] ++ concat [elems (Some [r1]); elems (Some [r2; r3])]
    /\ ([elems (Some [r1]); elems (Some [r2; r3])] <> [] -> err = None).
Proof.
  apply (load_after_appends gh0 fresh [] _ after2).
  - vm_compute. reflexivity.
  - apply (appends_cons gh0 fresh (reading [frag1]) (Some [r1]) after1).
    + vm_compute. reflexivity.
    + reflexivity.
    + apply (appends_cons gh0 after1 (reading [frag2]) (Some [r2; r3]) after2).
      * vm_compute. reflexivity.
      * reflexivity.
      * apply appends_nil.
Defined.

(** The two appends on the fresh store, run. *)
Example after2_holds :
  (loadAndMarshalResultsFile gh0 after2).1.1.1 = mkWrapper (Some [r1; r2; r3]).
Proof. vm_compute. reflexivity. Qed.

Lemma load_missing_store_returns_error_witness :
  exists e,
    (loadAndMarshalResultsFile gh0 fresh).1 = (zero, EmptyString, Some e)
    /\ IsNotExist (Some e) = true.
Proof.
  apply (load_missing_store_returns_error gh0 fresh).
  - reflexivity.
  - vm_compute. reflexivity.
Defined.

Lemma AppendResult_aborts_on_fragment_failure_witness :
  exists good bad rest e,
    [frag1; absent; frag2] = good ++ bad :: rest
    /\ Forall (fun f => fragmentError f fresh = None) good
    /\ fragmentError bad fresh = Some e
    /\ AppendResult gh0 (Some (mkCommandResult (Some (mkReader [frag1; absent; frag2]))))
         fresh = (Some e, fresh).
Proof.
  apply (AppendResult_aborts_on_fragment_failure gh0 [frag1; absent; frag2] fresh).
  apply Exists_cons_tl, Exists_cons_hd. vm_compute. discriminate.
Defined.

(** The call with the missing fragment file, run: its error, and the store
    file still not there. *)
Example missing_fragment_aborts :
  (AppendResult gh0 (reading [frag1; absent; frag2]) fresh).1
    = Some (PathError "open" absent ENOENT)
  /\ files (AppendResult gh0 (reading [frag1; absent; frag2]) fresh).2
       !! getDataFilePath gh0 = None.
Proof. vm_compute. split; reflexivity. Qed.

Lemma AppendResult_discards_unloadable_store_witness :
  exists w',
    AppendResult gh0 (reading [frag1; frag2]) corrupt = (None, w')
    /\ files w' = <[getDataFilePath gh0 :=
                      File (MarshalIndent
                              (mkWrapper (append None (elems (Some [r1; r2; r3]))))).1]>
                   (files corrupt).
Proof.
  apply (AppendResult_discards_unloadable_store gh0 (reading [frag1; frag2])
           (Some [r1; r2; r3]) corrupt).
  - right. exists "<<<<<<< not json".
    split; [vm_compute; reflexivity | split; [discriminate | vm_compute; reflexivity]].
  - vm_compute. reflexivity.
  - reflexivity.
  - intros es. vm_compute. discriminate.
Defined.

(** That append, run: it returns no error, and the store file holds the
    three records of the two fragment files, in order, and nothing of the
    text it held. *)
Example corrupt_store_is_overwritten :
  (AppendResult gh0 (reading [frag1; frag2]) corrupt).1 = None
  /\ files (AppendResult gh0 (reading [frag1; frag2]) corrupt).2 !! getDataFilePath gh0
     = Some (File (indWrapper (mkWrapper (Some [r1; r2; r3])))).
Proof. vm_compute. split; reflexivity. Qed.

(** The same with a store file that holds a record and cannot be read:
    the load fails, the append returns no error, and afterwards the store
    holds the two records of the batch; the record it held is gone. *)
Example unreadable_store_is_overwritten :
  (loadAndMarshalResultsFile gh0 unreadable).1.2
    = Some (PathError "open" (getDataFilePath gh0) (Injected EACCES))
  /\ (readResult (reading [frag2]) unreadable).1 = (Some [r2; r3], None)
  /\ (AppendResult gh0 (reading [frag2]) unreadable).1 = None
  /\ files (AppendResult gh0 (reading [frag2]) unreadable).2 !! getDataFilePath gh0
     = Some (File (indWrapper (mkWrapper (Some [r2; r3])))).
Proof. vm_compute. repeat split; reflexivity. Qed.

(** C4 as stated fails on the missing store file: an append of an empty
    batch creates it. *)
Lemma append_empty_batch_creates_store :
  (readResult None fresh).1 = (None, None)
  /\ files fresh !! getDataFilePath gh0 = None
  /\ (AppendResult gh0 None fresh).1 = None
  /\ files (AppendResult gh0 None fresh).2 !! getDataFilePath gh0
     = Some (File (indWrapper zero)).
Proof. vm_compute. repeat split; reflexivity. Qed.

(** It also fails on the store file [createTempFile] writes, which is in
    the compact layout: the append rewrites it indented. *)
Example append_empty_batch_reindents_store :
  files initialised !! getDataFilePath gh0 = Some (File (encWrapper (mkWrapper (Some []))))
  /\ files (AppendResult gh0 None initialised).2 !! getDataFilePath gh0
     = Some (File (indWrapper (mkWrapper (Some []))))
  /\ encWrapper (mkWrapper (Some [])) <> indWrapper (mkWrapper (Some [])).
Proof. vm_compute. repeat split; try reflexivity. discriminate. Qed.

Lemma AppendResult_empty_batch_witness :
  exists w', AppendResult gh0 None after2 = (None, w') /\ files w' = files after2.
Proof.
  apply (proj1 (AppendResult_empty_batch gh0 None None after2
                  eq_refl eq_refl eq_refl eq_refl)
           (mkWrapper (Some [r1; r2; r3]))).
  - by apply Forall_forall.
  - vm_compute. reflexivity.
Defined.

End StoreChecks.

(* ===================================================================== *)
(** * The aggregator on concrete runs                                    *)
(* ===================================================================== *)

Module SummaryChecks.
Import Go GoFacts Summary SummaryProps CloseProps SummaryRuns.

(** C2 as stated fails when a section fails and its file is there: the
    security section fails in this call, and the markdown it left earlier
    is in the report all the same. *)
Lemma failed_section_still_contributes :
  (invoke Security stale).1 <> None
  /\ (finalize stale).1 = None
  /\ files (finalize stale).2 !! reportPath stale
     = Some (File (oldScan +:+ buildInfoText))
  /\ describedDocument MarkdownSection securitySummary buildInfoSummary
       uploadSummary writeSection indexed stale = buildInfoText
  /\ oldScan +:+ buildInfoText <> buildInfoText.
Proof. vm_compute. repeat split; try reflexivity; discriminate. Qed.

Lemma report_is_sections_on_disk_witness :
  finalize stale =
    (let w3 :=
       attempt MarkdownSection securitySummary buildInfoSummary uploadSummary
         writeSection indexed Upload
         (attempt MarkdownSection securitySummary buildInfoSummary uploadSummary
            writeSection indexed BuildInfo
            (attempt MarkdownSection securitySummary buildInfoSummary uploadSummary
               writeSection indexed Security stale)) in
     saveMarkdownToFileSystem
       (sectionText Security w3 +:+ sectionText BuildInfo w3 +:+ sectionText Upload w3) w3)
  /\ (forall s v e,
        (invoke s v).1 = Some e ->
        logs (attempt MarkdownSection securitySummary buildInfoSummary uploadSummary
                writeSection indexed s v)
        = logs (invoke s v).2
          ++ [(LWarn, [AStr "Failed to generate markdown for section %s: %v";
                       AStr s; AErr e])]).
Proof.
  apply (report_is_sections_on_disk unit string unit MarkdownSection (fun url => url)
           details manager version init securitySummary buildInfoSummary uploadSummary
           writeSection indexed tt stale "https://rt.example/" 7%Z stale stale).
  - reflexivity.
  - reflexivity.
  - reflexivity.
  - repeat constructor; vm_compute; reflexivity.
Defined.

(** A section file that is there and cannot be read fails the whole
    call: no report is written. *)
Example unreadable_section_fails_the_call :
  (finalize locked).1
    = Some (Errorf "error combining markdown files: %w"
              (Errorf "error getting markdown content for section %s: %w"
                 (Errorf "error reading markdown file for section %s: %w"
                    (PathError "open" (sectionPath Security locked) (Injected EACCES)))))
  /\ files (finalize locked).2 !! reportPath locked = None.
Proof. vm_compute. split; reflexivity. Qed.

(** The warning for the failed section is in the log, and the sections
    after it ran. *)
Example failure_is_logged :
  logs (finalize stale).2
  = [(LWarn, [AStr "Failed to generate markdown for section %s: %v"; AStr Security;
              AErr (Errorf "error generating security markdown: %w"
                      (ErrorString "scan results are not readable"))]);
     (LDebug, [AStr "Skipping upload summary generation due build-info data to avoid duplications..."])].
Proof. vm_compute. reflexivity. Qed.

Lemma empty_report_is_not_written_witness :
  let w3 :=
    attempt MarkdownSection failing_ failing_ failing_ writeSection indexed Upload
      (attempt MarkdownSection failing_ failing_ failing_ writeSection indexed BuildInfo
         (attempt MarkdownSection failing_ failing_ failing_ writeSection indexed
            Security bare)) in
  finalizeNothing bare = (None, w3)
  /\ saveMarkdownToFileSystem EmptyString w3 = (None, w3).
Proof.
  apply (empty_report_is_not_written unit string unit MarkdownSection (fun url => url)
           details manager version init failing_ failing_ failing_
           writeSection indexed tt bare "https://rt.example/" 7%Z bare bare).
  - reflexivity.
  - reflexivity.
  - reflexivity.
  - vm_compute. reflexivity.
Defined.

(** No report file exists after that call. *)
Example empty_run_leaves_no_report :
  files (finalizeNothing bare).2 !! reportPath bare = None.
Proof. vm_compute. reflexivity. Qed.

Lemma upload_skipped_unless_buildinfo_absent_witness :
  exists err,
    generateUploadMarkdown MarkdownSection uploadSummary writeSection built
      = (err, skipped built)
    /\ (forall es, files built !! buildInfoPath built = Some (Dir es) ->
                  faults built (CReadDir (buildInfoPath built)) = None -> err = None).
Proof.
  apply (upload_skipped_unless_buildinfo_absent MarkdownSection uploadSummary
           writeSection built).
  - vm_compute. discriminate.
  - vm_compute. discriminate.
Defined.

(** C9 as stated fails when the file cannot be created: every close would
    succeed, and the write returns the error of closing no file. *)
Lemma create_failure_is_not_reported_as_success :
  (Create (reportPath readOnly) readOnly).1.2
    = Some (PathError "open" (reportPath readOnly) (Injected EACCES))
  /\ (forall name, faults readOnly (CClose name) = None)
  /\ (saveMarkdownToFileSystem "# report" readOnly).1 = Some ErrInvalid.
Proof. split; [| split]; [vm_compute; reflexivity | done | vm_compute; reflexivity]. Qed.

(** A write that fails on a full disk is reported as success. *)
Example write_failure_is_masked :
  (WriteString (Create (reportPath full) full).1.1 "# report"
     (Create (reportPath full) full).2).1
    = Some (PathError "write" (reportPath full) (Injected ENOSPC))
  /\ (saveMarkdownToFileSystem "# report" full).1 = None.
Proof. vm_compute. split; reflexivity. Qed.

Lemma write_error_is_close_error_witness :
  let file := (Create (reportPath full) full).1.1 in
  let closing name := failing (CClose name) "close" name full in
  let summaryPath := Join [Cliutils.dirPath summary; "github-action-summary.md"] in
  (saveMarkdownToFileSystem "# report" full).1 = (Close file full).1
  /\ (file = None -> (saveMarkdownToFileSystem "# report" full).1 = Some ErrInvalid)
  /\ (file <> None -> (saveMarkdownToFileSystem "# report" full).1 = closing (reportPath full))
  /\ ((Cliutils.generateMarkdown summary full).1 = Returns (Some ErrInvalid)
      \/ (Cliutils.generateMarkdown summary full).1 = Returns (closing summaryPath))
  /\ (faults full (COpenFile summaryPath) = None ->
      (forall es, files full !! summaryPath <> Some (Dir es)) ->
      (Cliutils.generateMarkdown summary full).1 = Returns (closing summaryPath)).
Proof.
  apply (write_error_is_close_error "# report" full summary
           (PathTree.addPath "repo/x/a.txt" PathTree.empty)).
  - discriminate.
  - reflexivity.
Defined.

End SummaryChecks.

(* ===================================================================== *)
(** * What the file operations leave alone                               *)
(* ===================================================================== *)

Module Frames.
Import Go GoFacts.

Lemma sameOutside_refl name w : sameOutside name w w.
Proof. done. Qed.

Lemma sameOutside_trans name w1 w2 w3 :
  sameOutside name w1 w2 -> sameOutside name w2 w3 -> sameOutside name w1 w3.
Proof.
  intros (Hf1 & He1 & Hs1) (Hf2 & He2 & Hs2). repeat split; [congruence | congruence |].
  intros q Hq. by rewrite Hs2, Hs1.
Qed.

(** Sequencing keeps a frame, given what the first step returns. *)
Lemma bind_frame {A B} (Q : A -> Prop) name (m : M A) (k : A -> M B) w :
  sameOutside name w (m w).2 -> Q (m w).1 ->
  (forall a v, Q a -> sameOutside name v (k a v).2) ->
  sameOutside name w (bind m k w).2.
Proof.
  intros Hm HQ Hk. unfold bind. destruct (m w) as [a w1]. simpl in *.
  eapply sameOutside_trans; [exact Hm | by apply Hk].
Qed.

Lemma log_frame name l args w : sameOutside name w (log l args w).2.
Proof. done. Qed.

Lemma Remove_frame name w : sameOutside name w (Remove name w).2.
Proof.
  unfold Remove. destruct (faults w _); [done |].
  destruct (files w !! name) as [[?|[|? ?]]|]; try done;
    (split; [done | split; [done |]]); intros q Hq; simpl; by rewrite lookup_delete_ne.
Qed.

Lemma OpenFile_append_frame name w :
  sameOutside name w (OpenFile_append name w).2
  /\ forall h, (OpenFile_append name w).1.1 = Some h -> hname h = name.
Proof.
  unfold OpenFile_append. destruct (faults w _); [done |].
  destruct (files w !! name) as [[?|?]|]; simpl; (split; [| by inversion 1]); try done.
  split; [done | split; [done |]]. intros q Hq. simpl. by rewrite lookup_insert_ne.
Qed.

Lemma Create_frame name w :
  sameOutside name w (Create name w).2
  /\ forall h, (Create name w).1.1 = Some h -> hname h = name.
Proof.
  unfold Create. destruct (faults w _); [done |].
  destruct (files w !! name) as [[?|?]|]; simpl; (split; [| by inversion 1]); try done;
    (split; [done | split; [done |]]); intros q Hq; simpl; by rewrite lookup_insert_ne.
Qed.

Lemma WriteString_frame name file s w :
  (forall h, file = Some h -> hname h = name) ->
  sameOutside name w (WriteString file s w).2.
Proof.
  intros Hh. unfold WriteString. destruct file as [h|]; [| done].
  rewrite (Hh h eq_refl). destruct (faults w _); [done |].
  destruct (files w !! name) as [[?|?]|]; try done.
  split; [done | split; [done |]]. intros q Hq. simpl. by rewrite lookup_insert_ne.
Qed.

Lemma Close_frame name file w : sameOutside name w (Close file w).2.
Proof. unfold Close. by destruct file. Qed.

Lemma WriteFile_frame name data w : sameOutside name w (WriteFile name data w).2.
Proof.
  unfold WriteFile. destruct (faults w _); [done |].
  destruct (files w !! name) as [[?|?]|]; try done;
    (split; [done | split; [done |]]); intros q Hq; simpl; by rewrite lookup_insert_ne.
Qed.

End Frames.

Module MarkdownFrame.
Import Go GoFacts Cliutils Frames.

(** Writing the markdown touches the markdown file and the log only. *)
Lemma generateMarkdown_frame gh w :
  sameOutside (summaryPath gh) w (generateMarkdown gh w).2.
Proof.
  unfold generateMarkdown. fold (summaryPath gh). set (p := summaryPath gh).
  apply (bind_frame (fun _ => True)); [apply log_frame | done |]. intros _ v1 _.
  apply (bind_frame (fun _ => True)); [apply Remove_frame | done |]. intros _ v2 _.
  apply (bind_frame (fun _ => True)); [apply log_frame | done |]. intros _ v3 _.
  apply (bind_frame (fun r : option Handle * error =>
                       forall h, r.1 = Some h -> hname h = p));
    [apply OpenFile_append_frame | apply OpenFile_append_frame |].
  intros [file err] v4 Hh. simpl in Hh.
  unfold defer_assign_outcome.
  apply (bind_frame (fun _ => True)); [| done |].
  - destruct err; [done |].
    apply (bind_frame (fun _ => True)); [by apply WriteString_frame | done |].
    intros _ v5 _.
    apply (bind_frame (fun _ => True)); [by apply WriteString_frame | done |].
    intros _ v6 _. destruct (uploadTree gh); [| done].
    apply (bind_frame (fun _ => True)); [by apply WriteString_frame | done |]. done.
  - intros r v5 _.
    apply (bind_frame (fun _ => True)); [apply Close_frame | done |]. done.
Qed.
End MarkdownFrame.

(* ===================================================================== *)
(** * More on the store: load, append, tree, markdown                    *)
(* ===================================================================== *)

Module StoreMore.
Import Go GoFacts Cliutils StoreProps Frames.

Section WithCodec.
Context `{Json}.

Lemma ReadFile_error_empty name w e :
  (ReadFile name w).1.2 = Some e -> (ReadFile name w).1.1 = EmptyString.
Proof.
  unfold ReadFile. destruct (faults w _); [done |].
  by destruct (files w !! name) as [[?|?]|].
Qed.

(** X1: the load returns no error exactly when the store file can be read
    and is empty or decodes; a missing file, an unreadable file and bytes
    the decoder rejects all come back with an error. *)
Theorem load_succeeds_iff gh w :
  (loadAndMarshalResultsFile gh w).1.2 = None <->
  exists b, (ReadFile (getDataFilePath gh) w).1 = (b, None)
            /\ (b = EmptyString \/ (Unmarshal b).2 = None).
Proof.
  unfold loadAndMarshalResultsFile, bind.
  pose proof (ReadFile_error_empty (getDataFilePath gh) w) as Hempty.
  destruct (ReadFile (getDataFilePath gh) w) as [[b err] w1]. simpl in *.
  destruct err as [e|].
  - rewrite (Hempty e eq_refl). split; [| by intros (b' & Hb & _)].
    by destruct (negb (IsNotExist (Some e))).
  - simpl. destruct (String.length b <=? 0) eqn:E.
    + apply string_length_0 in E. subst b. simpl. split; [| done].
      intros _. exists EmptyString. split; [done | by left].
    + destruct (Unmarshal b) as [tw uerr] eqn:EU. simpl. split.
      * intros ->. exists b. split; [done |]. right. by rewrite EU.
      * intros (b' & Hb & [-> | Hu]); inversion Hb; subst; [done |].
        by rewrite EU in Hu.
Qed.

(** An append touches the store file and the log only. *)
Lemma AppendResult_frame gh result w :
  sameOutside (getDataFilePath gh) w (AppendResult gh result w).2.
Proof.
  unfold AppendResult, bind.
  pose proof (readResult_world result w) as Hw.
  destruct (readResult result w) as [[rc err] w0]. simpl in Hw. subst w0.
  destruct err; [done |].
  pose proof (load_world gh w) as (Hfiles & Hfaults & Henv).
  destruct (loadAndMarshalResultsFile gh w) as [[[tw tb] lerr] w1]. simpl in *.
  assert (sameOutside (getDataFilePath gh) w w1) as Hload.
  { split; [done | split; [done |]]. intros q _. by rewrite Hfiles. }
  destruct (MarshalIndent _) as [bytes [e|]]; [done |].
  pose proof (WriteFile_frame (getDataFilePath gh) bytes w1) as Hwrite.
  destruct (WriteFile _ bytes w1) as [[e|] w2]; simpl in *;
    by apply (sameOutside_trans _ w w1 w2).
Qed.

(** X2: whatever its outcome, an append leaves the environment and every
    file other than the store file as they were. *)
Theorem AppendResult_touches_only_the_store gh result w :
  let w' := (AppendResult gh result w).2 in
  env w' = env w
  /\ faults w' = faults w
  /\ forall q, q <> getDataFilePath gh -> files w' !! q = files w !! q.
Proof.
  destruct (AppendResult_frame gh result w) as (Hf & He & Hq). done.
Qed.

(** X4: building the tree fails exactly when the load fails, and then
    hands the summary back without a tree set; it never changes a file. *)
Theorem generateUploadedFilesTree_follows_load gh w :
  (generateUploadedFilesTree gh w).1.2 = (loadAndMarshalResultsFile gh w).1.2
  /\ ((loadAndMarshalResultsFile gh w).1.2 <> None ->
      (generateUploadedFilesTree gh w).1.1 = gh)
  /\ files (generateUploadedFilesTree gh w).2 = files w.
Proof.
  unfold generateUploadedFilesTree, bind.
  pose proof (load_world gh w) as (Hfiles & _).
  destruct (loadAndMarshalResultsFile gh w) as [[[tw tb] [e|]] w1]; simpl in *; done.
Qed.

(** X5: a data file that is already there is left alone: nothing is
    written and no error is returned. *)
Theorem createTempFile_keeps_existing filePath content b w :
  faults w (CStat filePath) = None ->
  files w !! filePath = Some (File b) ->
  createTempFile filePath content w = (None, w).
Proof.
  intros Hq Hf. unfold createTempFile, IsFileExists, bind, Stat.
  by rewrite Hq, Hf.
Qed.

(** X6: where there is no file and no call fails before the close, the
    file is created with exactly the compact encoding of the content, and
    the error returned is the one of the close. *)
Theorem createTempFile_creates filePath content bytes w :
  files w !! filePath = None ->
  faults w (CStat filePath) = None ->
  faults w (CCreate filePath) = None ->
  faults w (CWriteString filePath) = None ->
  Marshal content = (bytes, None) ->
  (createTempFile filePath content w).1 = failing (CClose filePath) "close" filePath w
  /\ files (createTempFile filePath content w).2 = <[filePath := File bytes]> (files w).
Proof.
  intros Hf Hs Hc Hw Hm.
  unfold createTempFile, IsFileExists, bind, Stat, defer_assign, bind, Create.
  rewrite Hs, Hf. simpl. rewrite Hc, Hf, Hm. unfold WriteString. simpl.
  rewrite Hw, lookup_insert_eq. simpl. split; [done |].
  by rewrite insert_insert_eq.
Qed.

(** The markdown file after the three writes, from what the open found. *)
Lemma generateMarkdown_written gh tree w :
  uploadTree gh = Some tree ->
  faults w (COpenFile (summaryPath gh)) = None ->
  faults w (CWriteString (summaryPath gh)) = None ->
  (forall e es, files w !! summaryPath gh <> Some (Dir (e :: es))) ->
  files (generateMarkdown gh w).2 !! summaryPath gh =
    Some (File (match faults w (CRemove (summaryPath gh)), files w !! summaryPath gh with
                | Some _, Some (File old) => old +:+ summaryMarkdown tree
                | _, _ => summaryMarkdown tree
                end))
  \/ (exists f, faults w (CRemove (summaryPath gh)) = Some f
                /\ files w !! summaryPath gh = Some (Dir [])).
Proof.
  intros Htree Ho Hw Hd. unfold generateMarkdown. rewrite Htree.
  fold (summaryPath gh). set (p := summaryPath gh) in *.
  unfold bind, defer_assign_outcome, bind, log, Remove, OpenFile_append,
    WriteString, Close, ret, set_files.
  cbn [faults files fst snd hname].
  destruct (faults w (CRemove p)) as [f|] eqn:Hr.
  - destruct (files w !! p) as [[old|[|e es]]|] eqn:Hf;
      [left | right; by exists f | by destruct (Hd e es) | left];
      repeat (cbn [faults files fst snd hname];
              rewrite ?Ho, ?Hw, ?Hf, ?lookup_insert_eq);
      unfold summaryMarkdown; by rewrite ?append_assoc.
  - left. destruct (files w !! p) as [[old|[|e es]]|] eqn:Hf;
      [| | by destruct (Hd e es) |];
      repeat (cbn [faults files fst snd hname];
              rewrite ?Ho, ?Hw, ?lookup_delete_eq, ?Hf, ?lookup_insert_eq);
      unfold summaryMarkdown; by rewrite ?append_assoc.
Qed.

(** X7: when the old markdown file can be removed and the new one opened
    and written, the file holds the two headings and the fenced tree and
    nothing else, whatever it held before. *)
Theorem generateMarkdown_starts_afresh gh tree w :
  uploadTree gh = Some tree ->
  faults w (CRemove (summaryPath gh)) = None ->
  faults w (COpenFile (summaryPath gh)) = None ->
  faults w (CWriteString (summaryPath gh)) = None ->
  (forall e es, files w !! summaryPath gh <> Some (Dir (e :: es))) ->
  files (generateMarkdown gh w).2 !! summaryPath gh = Some (File (summaryMarkdown tree)).
Proof.
  intros Htree Hr Ho Hw Hd.
  destruct (generateMarkdown_written gh tree w Htree Ho Hw Hd) as [Hc | (f & Hf & _)].
  - by rewrite Hr in Hc.
  - congruence.
Qed.

(** X8: the error of the removal is dropped and the file is opened for
    appending, so when the old markdown file cannot be removed the new
    markdown is written after the old content. *)
Theorem generateMarkdown_appends_to_unremoved gh tree old f w :
  uploadTree gh = Some tree ->
  faults w (CRemove (summaryPath gh)) = Some f ->
  files w !! summaryPath gh = Some (File old) ->
  faults w (COpenFile (summaryPath gh)) = None ->
  faults w (CWriteString (summaryPath gh)) = None ->
  files (generateMarkdown gh w).2 !! summaryPath gh
    = Some (File (old +:+ summaryMarkdown tree)).
Proof.
  intros Htree Hr Hf Ho Hw.
  destruct (generateMarkdown_written gh tree w Htree Ho Hw) as [Hc | (f' & _ & Hd)].
  - intros e es. by rewrite Hf.
  - by rewrite Hr, Hf in Hc.
  - congruence.
Qed.

(** X13: the second revision of the load returns what the first returns,
    wrapper, bytes and error, on a summary with the same directory and
    file name; it leaves the world as it is. *)
Theorem loadAndMarshalResultsFile_revisions_agree gh (gh2 : Cliutils2.GitHubActionSummary) w :
  Cliutils2.dirPath gh2 = dirPath gh ->
  Cliutils2.rawDataFile gh2 = rawDataFile gh ->
  (Cliutils2.loadAndMarshalResultsFile gh2 w).1 = (loadAndMarshalResultsFile gh w).1
  /\ (Cliutils2.loadAndMarshalResultsFile gh2 w).2 = w.
Proof.
  intros Hd Hr.
  unfold Cliutils2.loadAndMarshalResultsFile, loadAndMarshalResultsFile,
    Cliutils2.getFilePath, getDataFilePath, bind.
  rewrite Hd, Hr.
  pose proof (ReadFile_world (Join [dirPath gh; rawDataFile gh]) w) as Hw.
  destruct (ReadFile _ w) as [[b err] w1]. simpl in Hw. subst w1.
  destruct (bool_decide (err <> None) && negb (IsNotExist err)); [done |].
  destruct b as [|c b]; simpl; [done |].
  by destruct (Unmarshal (String c b)).
Qed.

End WithCodec.

Section WithLaws.
Context `{JsonLaws}.

(** X3: after an append that returned no error on a loadable store, the
    tree is built without error, from the target paths of the Results the
    store held followed by those of the batch, in this order. *)
Theorem tree_after_append gh result rc w w' prev :
  persisted gh w = Some prev ->
  (readResult result w).1 = (rc, None) ->
  AppendResult gh result w = (None, w') ->
  (generateUploadedFilesTree gh w').1
    = (mkSummary (dirPath gh) (rawDataFile gh) (Some (uploadedTree (prev ++ elems rc))),
       None).
Proof.
  intros Hp Hread Hcall.
  destruct (AppendResult_persisted gh result rc w w' prev Hp Hread Hcall) as (Hp' & Hsome).
  destruct (persisted_load gh w' _ Hp') as (tw & b & err & Hl & Hel & _ & Herr & _).
  rewrite (Herr Hsome) in Hl.
  unfold generateUploadedFilesTree, bind.
  destruct (loadAndMarshalResultsFile gh w') as [[[tw' tb] lerr] w1].
  simpl in Hl. inversion Hl; subst. simpl. by rewrite Hel.
Qed.

End WithLaws.
End StoreMore.

(* ===================================================================== *)
(** * The entry point of the store                                       *)
(* ===================================================================== *)

Module EntryProps.
Import Go GoFacts Cliutils StoreProps.

Section WithCodec.
Context `{Json}.
Variable CreateDirIfNotExist : string -> M error.

Local Abbreviation init := (initGithubActionSummary CreateDirIfNotExist).
Local Abbreviation entry := (GenerateGitHubActionSummary CreateDirIfNotExist).

(** The summary every run works on. *)
Local Abbreviation gh0 := (newGithubActionSummary None).

(** The set-up is the creation of the directory and nothing more. *)
Lemma initGithubActionSummary_unfold w :
  init w =
    let (err, w1) := CreateDirIfNotExist homeDir w in
    match err with
    | Some e =>
        ((None, Some (Errorf "failed to load runtime info: %w"
                        (Errorf "failed to create dir %s: %w" e))), w1)
    | None => ((Some gh0, None), loaded w1)
    end.
Proof.
  unfold initGithubActionSummary, tryLoadPreviousRuntimeInfo, bind.
  by destruct (CreateDirIfNotExist homeDir w) as [[e|] w1].
Qed.

(** X10: setting a summary up never creates the data file: the new-summary
    path with [createTempFile] is not reached, and the files after the
    set-up are those the directory creation left.  A summary comes back
    exactly when the directory creation returned no error, and it is
    always the same one. *)
Theorem initGithubActionSummary_only_creates_dir w :
  files (init w).2 = files (CreateDirIfNotExist homeDir w).2
  /\ ((CreateDirIfNotExist homeDir w).1 = None -> (init w).1 = (Some gh0, None))
  /\ (forall e, (CreateDirIfNotExist homeDir w).1 = Some e ->
        (init w).1 = (None, Some (Errorf "failed to load runtime info: %w"
                                    (Errorf "failed to create dir %s: %w" e)))).
Proof.
  rewrite initGithubActionSummary_unfold.
  destruct (CreateDirIfNotExist homeDir w) as [[e|] w1]; simpl.
  - repeat split; [done |]. intros e' He. by inversion He.
  - done.
Qed.

(** X9: outside GitHub Actions, that is unless the variable is exactly
    [true], the entry point returns no error and does nothing. *)
Theorem GenerateGitHubActionSummary_off result w :
  env w !! githubActionsEnv <> Some "true" ->
  entry result w = (Returns None, w).
Proof.
  intros Hoff. unfold GenerateGitHubActionSummary, bind, Getenv.
  destruct (env w !! githubActionsEnv) as [v|] eqn:E; simpl; [| done].
  destruct (String.eqb v "true") eqn:Ev; [| done].
  apply String.eqb_eq in Ev. by subst v.
Qed.

Lemma Getenv_on w :
  env w !! githubActionsEnv = Some "true" ->
  Getenv githubActionsEnv w = ("true", w).
Proof. intros He. unfold Getenv. by rewrite He. Qed.


End WithCodec.
End EntryProps.

(* ===================================================================== *)
(** * One run of the entry point                                         *)
(* ===================================================================== *)

Module EntryRun.
Import Go GoFacts Cliutils StoreProps CloseProps Frames MarkdownFrame StoreMore EntryProps.

Section WithLaws.
Context `{JsonLaws}.
Variable CreateDirIfNotExist : string -> M error.

Local Abbreviation entry := (GenerateGitHubActionSummary CreateDirIfNotExist).
Local Abbreviation gh0 := (newGithubActionSummary None).

(** An append on a loadable store whose fragment files are read and whose
    write is not refused returns no error. *)
Lemma AppendResult_succeeds gh result rc w prev :
  persisted gh w = Some prev ->
  (readResult result w).1 = (rc, None) ->
  faults w (CWriteFile (getDataFilePath gh)) = None ->
  exists w', AppendResult gh result w = (None, w').
Proof.
  intros Hp Hread Hq.
  rewrite (AppendResult_unfold gh result rc w Hread).
  destruct (persisted_load gh w prev Hp) as (tw & b & lerr & Hl & _ & _ & _ & Hdir).
  pose proof (load_world gh w) as (Hfiles & Hfaults & _).
  destruct (loadAndMarshalResultsFile gh w) as [[[tw' tb] lerr'] w1]. simpl in *.
  pose proof (MarshalIndent_ok (mkWrapper (append (Results tw') (elems rc)))) as Hm.
  destruct (MarshalIndent _) as [bytes merr]. simpl in Hm. subst merr.
  rewrite WriteFile_ok; [by eexists | by rewrite Hfaults | by rewrite Hfiles].
Qed.

(** What the store holds is a matter of its file and of the read. *)
Lemma persisted_sameOutside gh name w w' :
  name <> getDataFilePath gh -> sameOutside name w w' ->
  persisted gh w' = persisted gh w.
Proof.
  intros Hne (Hf & _ & Hq). unfold persisted. by rewrite Hf, (Hq _ (not_eq_sym Hne)).
Qed.

Lemma tree_of_persisted gh w l :
  persisted gh w = Some l ->
  is_Some (files w !! getDataFilePath gh) ->
  (generateUploadedFilesTree gh w).1
    = (mkSummary (dirPath gh) (rawDataFile gh) (Some (uploadedTree l)), None)
  /\ sameOutside (summaryPath gh) w (generateUploadedFilesTree gh w).2
  /\ files (generateUploadedFilesTree gh w).2 = files w.
Proof.
  intros Hp Hsome.
  destruct (persisted_load gh w _ Hp) as (tw & b & err & Hl & Hel & _ & Herr & _).
  rewrite (Herr Hsome) in Hl.
  pose proof (load_world gh w) as (Hfiles & Hfaults & Henv).
  unfold generateUploadedFilesTree, bind.
  destruct (loadAndMarshalResultsFile gh w) as [[[tw' tb] lerr] w1].
  simpl in *. inversion Hl; subst. simpl.
  repeat split; try done. intros q _. by rewrite Hfiles.
Qed.

Lemma paths_differ : summaryPath gh0 <> getDataFilePath gh0.
Proof. vm_compute. discriminate. Qed.

(** X12: in GitHub Actions, with the directory created, a loadable store,
    fragment files that are read, and no refusal on the store write or on
    the markdown file, one run of the entry point leaves the store holding
    the earlier Results followed by the batch, leaves the markdown file
    holding the headings and the tree of all their target paths, and
    returns what closing the markdown file returns. *)
Theorem GenerateGitHubActionSummary_run result rc prev w w1 :
  env w !! githubActionsEnv = Some "true" ->
  CreateDirIfNotExist homeDir w = (None, w1) ->
  persisted gh0 (loaded w1) = Some prev ->
  (readResult result (loaded w1)).1 = (rc, None) ->
  faults w1 (CWriteFile (getDataFilePath gh0)) = None ->
  faults w1 (CRemove (summaryPath gh0)) = None ->
  faults w1 (COpenFile (summaryPath gh0)) = None ->
  faults w1 (CWriteString (summaryPath gh0)) = None ->
  (forall es, files w1 !! summaryPath gh0 <> Some (Dir es)) ->
  (entry result w).1
    = Returns (failing (CClose (summaryPath gh0)) "close" (summaryPath gh0) w1)
  /\ persisted gh0 (entry result w).2 = Some (prev ++ elems rc)
  /\ files (entry result w).2 !! summaryPath gh0
     = Some (File (summaryMarkdown (uploadedTree (prev ++ elems rc)))).
Proof.
  intros Hon Hdir Hp Hread Hqw Hqr Hqo Hqs Hnd.
  set (v := loaded w1) in *.
  destruct (AppendResult_succeeds gh0 result rc v prev Hp Hread Hqw) as (v1 & Hcall).
  destruct (AppendResult_persisted gh0 result rc v v1 prev Hp Hread Hcall) as (Hp1 & Hsome).
  pose proof (AppendResult_frame gh0 result v) as Hf1. rewrite Hcall in Hf1. simpl in Hf1.
  destruct (tree_of_persisted gh0 v1 _ Hp1 Hsome) as (Htree & Hf2 & Hfiles2).
  unfold GenerateGitHubActionSummary, bind. rewrite (Getenv_on w Hon). simpl.
  rewrite initGithubActionSummary_unfold, Hdir. fold v. rewrite Hcall.
  destruct (generateUploadedFilesTree gh0 v1) as [[gh1 terr] v2]. simpl in Htree, Hf2, Hfiles2.
  inversion Htree; subst. clear Htree.
  set (gh1 := mkSummary _ _ _).
  assert (summaryPath gh1 = summaryPath gh0) as Hsp by done.
  assert (faults v2 = faults w1) as Hfaults.
  { destruct Hf2 as (-> & _). by destruct Hf1 as (-> & _). }
  assert (files v2 !! summaryPath gh0 = files w1 !! summaryPath gh0) as Hmd.
  { rewrite Hfiles2. destruct Hf1 as (_ & _ & Hq). by rewrite (Hq _ paths_differ). }
  split; [| split].
  - destruct (generateMarkdown_result gh1 (uploadedTree (prev ++ elems rc)) v2 eq_refl)
      as (_ & Hres).
    fold (summaryPath gh1) in Hres. rewrite Hsp in Hres.
    rewrite Hres; [| by rewrite Hfaults | intros es; rewrite Hmd; apply Hnd].
    unfold failing. by rewrite Hfaults.
  - rewrite (persisted_sameOutside gh0 (summaryPath gh1) v2 _);
      [| rewrite Hsp; apply paths_differ | apply generateMarkdown_frame].
    rewrite (persisted_sameOutside gh0 (summaryPath gh0) v1 v2 paths_differ Hf2).
    exact Hp1.
  - rewrite <- Hsp.
    destruct (generateMarkdown_written gh1 (uploadedTree (prev ++ elems rc)) v2 eq_refl)
      as [Hc | (f & Hf & _)].
    + by rewrite Hsp, Hfaults.
    + by rewrite Hsp, Hfaults.
    + intros e es. rewrite Hsp, Hmd. apply Hnd.
    + rewrite Hsp, Hfaults, Hqr in Hc. exact Hc.
    + rewrite Hsp, Hfaults in Hf. congruence.
Qed.

End WithLaws.
End EntryRun.

(* ===================================================================== *)
(** * More on the aggregator                                             *)
(* ===================================================================== *)

Module SummaryMore.
Import Go GoFacts Summary SummaryProps CloseProps Frames.

(** X16: reading a section's markdown changes nothing; when it returns no
    error it returns the bytes of the section's file, or nothing when the
    file is not there; and a file that is not there is no error. *)
Theorem getSectionMarkdownContent_reads section w :
  (getSectionMarkdownContent section w).2 = w
  /\ ((getSectionMarkdownContent section w).1.2 = None ->
      (getSectionMarkdownContent section w).1.1 = sectionText section w)
  /\ (faults w (CStat (sectionPath section w)) = None ->
      files w !! sectionPath section w = None ->
      (getSectionMarkdownContent section w).1 = (EmptyString, None)).
Proof.
  split; [apply getSectionMarkdownContent_world |].
  split; [apply getSectionMarkdownContent_text |].
  intros Hq Hf. unfold getSectionMarkdownContent, bind, Getenv, Stat.
  fold (outputDir w). fold (sectionPath section w). by rewrite Hq, Hf.
Qed.

Lemma combineSections_fails good bad rest acc w :
  Forall (fun s => (getSectionMarkdownContent s w).1.2 = None) good ->
  (getSectionMarkdownContent bad w).1.2 <> None ->
  exists e, combineSections (good ++ bad :: rest) acc w = ((EmptyString, Some e), w).
Proof.
  intros Hgood Hbad. revert acc.
  induction Hgood as [|s good Hs _ IH]; intros acc; simpl; unfold bind.
  - pose proof (getSectionMarkdownContent_world bad w) as Hw.
    destruct (getSectionMarkdownContent bad w) as [[text [e|]] w1]; [| done].
    simpl in Hw. subst w1. by eexists.
  - pose proof (getSectionMarkdownContent_world s w) as Hw.
    destruct (getSectionMarkdownContent s w) as [[text err] w1].
    simpl in Hs, Hw. subst. apply IH.
Qed.

Lemma first_unreadable sections w :
  Exists (fun s => (getSectionMarkdownContent s w).1.2 <> None) sections ->
  exists good bad rest,
    sections = good ++ bad :: rest
    /\ Forall (fun s => (getSectionMarkdownContent s w).1.2 = None) good
    /\ (getSectionMarkdownContent bad w).1.2 <> None.
Proof.
  induction sections as [|s sections IH]; intros Hex; [by inversion Hex |].
  destruct ((getSectionMarkdownContent s w).1.2) as [e|] eqn:E.
  - exists [], s, sections. repeat split; [done | by rewrite E].
  - inversion Hex as [? ? Hs | ? ? Hrest]; subst; [by rewrite E in Hs |].
    destruct (IH Hrest) as (good & bad & rest & -> & Hgood & Hbad).
    exists (s :: good), bad, rest. repeat split; [by constructor | done].
Qed.

(** X17: combining the section files changes nothing and returns no error
    exactly when every section file that is there can be read; when one
    cannot, the document returned is empty: no part of it is kept. *)
Theorem combineMarkdownFiles_all_or_nothing w :
  (combineMarkdownFiles w).2 = w
  /\ ((combineMarkdownFiles w).1.2 = None <->
      Forall (fun s => (getSectionMarkdownContent s w).1.2 = None) markdownSections)
  /\ ((combineMarkdownFiles w).1.2 <> None -> (combineMarkdownFiles w).1.1 = EmptyString).
Proof.
  split; [apply combineMarkdownFiles_world |].
  destruct (decide (Forall (fun s => (getSectionMarkdownContent s w).1.2 = None)
                           markdownSections)) as [Hall | Hnot].
  - unfold combineMarkdownFiles. rewrite (combineSections_texts _ _ _ Hall). simpl.
    split; [done | done].
  - assert (Exists (fun s => (getSectionMarkdownContent s w).1.2 <> None)
                   markdownSections) as Hex.
    { apply not_Forall_Exists; [intros s; apply _ | done]. }
    destruct (first_unreadable _ w Hex) as (good & bad & rest & Heq & Hgood & Hbad).
    unfold combineMarkdownFiles.
    destruct (combineSections_fails good bad rest EmptyString w Hgood Hbad) as (e & He).
    rewrite <- Heq in He. rewrite He. simpl. done.
Qed.

Lemma saveMarkdownToFileSystem_written m w :
  m <> EmptyString ->
  faults w (CCreate (reportPath w)) = None ->
  faults w (CWriteString (reportPath w)) = None ->
  (forall es, files w !! reportPath w <> Some (Dir es)) ->
  files (saveMarkdownToFileSystem m w).2 = <[reportPath w := File m]> (files w).
Proof.
  intros Hm Hc Hw Hd. unfold saveMarkdownToFileSystem. rewrite (eqb_nonempty m Hm).
  unfold bind, Getenv, defer_assign, bind. fold (outputDir w). fold (reportPath w).
  unfold Create. rewrite Hc.
  destruct (files w !! reportPath w) as [[b|es]|] eqn:Hf; [| by destruct (Hd es) |];
    unfold WriteString, set_files; cbn [hname faults files fst snd];
    rewrite Hw, lookup_insert_eq; cbn [hname faults files fst snd];
    by rewrite insert_insert_eq.
Qed.

(** X18: with the two directory calls not refused, the upload section is
    due exactly when the build-info path is missing or is an empty
    directory; a path that is a file is an error; nothing is changed. *)
Theorem shouldGenerateUploadSummary_decides w :
  faults w (CStat (buildInfoPath w)) = None ->
  faults w (CReadDir (buildInfoPath w)) = None ->
  shouldGenerateUploadSummary w =
    (match files w !! buildInfoPath w with
     | None => (true, None)
     | Some (Dir es) => (Nat.eqb (length es) 0, None)
     | Some (File _) =>
         (false, Some (Errorf "error reading directory: %w"
                         (PathError "readdirent" (buildInfoPath w) ENOTDIR)))
     end, w).
Proof.
  intros Hs Hr. unfold shouldGenerateUploadSummary, bind, Getenv.
  fold (outputDir w). fold (buildInfoPath w). unfold Stat, ReadDir. rewrite Hs.
  destruct (files w !! buildInfoPath w) as [[b|es]|] eqn:Hf; simpl; [| | done];
    by rewrite Hr, Hf.
Qed.

(** X23: a document that is not empty, written without a refusal to a
    path that is no directory, replaces whatever the report file held: the
    file then holds the document and nothing else, and no other file is
    touched. *)
Theorem saveMarkdownToFileSystem_replaces m w :
  m <> EmptyString ->
  faults w (CCreate (reportPath w)) = None ->
  faults w (CWriteString (reportPath w)) = None ->
  (forall es, files w !! reportPath w <> Some (Dir es)) ->
  files (saveMarkdownToFileSystem m w).2 = <[reportPath w := File m]> (files w).
Proof.
  intros Hm Hc Hw Hd. apply (saveMarkdownToFileSystem_written m w Hm Hc Hw Hd).
Qed.

(** What one scanned file does to the map: its name and the fallback get
    an entry, and nothing is logged, the mock scanner never failing. *)
Lemma processScan_result index filePath scannedName m w :
  exists res fallback,
    processScan index filePath scannedName m w
      = (<["fallback" := fallback]> (<[scannedName := res]> m), w).
Proof. destruct index; by eexists _, _. Qed.

Lemma scanFiles_keys index keyValue m w :
  (scanFiles index keyValue m w).2 = w
  /\ (forall k, is_Some (m !! k) -> is_Some ((scanFiles index keyValue m w).1 !! k))
  /\ (forall name, name ∈ map fst keyValue ->
        is_Some ((scanFiles index keyValue m w).1 !! name))
  /\ (forall k, k ∉ map fst keyValue -> k <> "fallback" ->
        (scanFiles index keyValue m w).1 !! k = m !! k)
  /\ (keyValue <> [] -> is_Some ((scanFiles index keyValue m w).1 !! "fallback")).
Proof.
  revert m. induction keyValue as [|[name path] rest IH]; intros m.
  - simpl. repeat split; try done. intros name Hin. by apply elem_of_nil in Hin.
  - simpl. unfold bind.
    destruct (processScan_result index path name m w) as (res & fb & ->).
    set (m1 := <["fallback" := fb]> (<[name := res]> m)).
    destruct (IH m1) as (Hw & Hmono & Hnames & Hframe & _).
    assert (forall k, is_Some (m !! k) -> is_Some (m1 !! k)) as Hm1.
    { intros k Hk. subst m1. rewrite !lookup_insert. repeat case_decide; by eauto. }
    assert (is_Some (m1 !! name)) as Hname.
    { subst m1. rewrite !lookup_insert. repeat case_decide; by eauto. }
    assert (is_Some (m1 !! "fallback")) as Hfb.
    { subst m1. rewrite lookup_insert_eq. by eauto. }
    split; [done |]. split; [by auto |]. split; [| split].
    + intros k Hin. apply elem_of_cons in Hin as [-> | Hin]; [by apply Hmono | by apply Hnames].
    + intros k Hk Hf. apply not_elem_of_cons in Hk as [Hne Hk].
      rewrite (Hframe k Hk Hf). subst m1. by rewrite !lookup_insert_ne.
    + intros _. by apply Hmono.
Qed.

Lemma scanIndexes_keys indexedFiles m w :
  (scanIndexes indexedFiles m w).2 = w
  /\ (forall k, is_Some (m !! k) -> is_Some ((scanIndexes indexedFiles m w).1 !! k))
  /\ (forall name, name ∈ scannedNames indexedFiles ->
        is_Some ((scanIndexes indexedFiles m w).1 !! name))
  /\ (forall k, k ∉ scannedNames indexedFiles -> k <> "fallback" ->
        (scanIndexes indexedFiles m w).1 !! k = m !! k)
  /\ (scannedNames indexedFiles <> [] ->
      is_Some ((scanIndexes indexedFiles m w).1 !! "fallback")).
Proof.
  revert m. induction indexedFiles as [|[index keyValue] rest IH]; intros m.
  - simpl. repeat split; try done. intros name Hin. by apply elem_of_nil in Hin.
  - simpl. unfold bind.
    destruct (scanFiles_keys index keyValue m w) as (Hw1 & Hmono1 & Hnames1 & Hframe1 & Hfb1).
    destruct (scanFiles index keyValue m w) as [m1 v]. simpl in *. subst v.
    destruct (IH m1) as (Hw & Hmono & Hnames & Hframe & Hfb).
    change (scannedNames ((index, keyValue) :: rest))
      with (map fst keyValue ++ scannedNames rest).
    split; [done |]. split; [by auto |]. split; [| split].
    + intros name Hin. apply elem_of_app in Hin as [Hin | Hin]; by auto.
    + intros k Hk Hf. apply not_elem_of_app in Hk as [Hk1 Hk2].
      by rewrite (Hframe k Hk2 Hf), (Hframe1 k Hk1 Hf).
    + intros Hne. destruct keyValue as [|kv keyValue'].
      * apply Hfb. by simpl in Hne.
      * by apply Hmono, Hfb1.
Qed.

(** X21: the two loops over the indexed files log nothing and change
    nothing; in the map they return every scanned name has an entry,
    the fallback has one as soon as a file was scanned, and every other
    name keeps the entry it had. *)
Theorem scanIndexes_fills indexedFiles m w :
  (scanIndexes indexedFiles m w).2 = w
  /\ (forall name, name ∈ scannedNames indexedFiles ->
        is_Some ((scanIndexes indexedFiles m w).1 !! name))
  /\ (scannedNames indexedFiles <> [] ->
      is_Some ((scanIndexes indexedFiles m w).1 !! "fallback"))
  /\ (forall k, k ∉ scannedNames indexedFiles -> k <> "fallback" ->
        (scanIndexes indexedFiles m w).1 !! k = m !! k).
Proof.
  destruct (scanIndexes_keys indexedFiles m w) as (Hw & _ & Hnames & Hframe & Hfb).
  done.
Qed.

Section WithCollaborators.
Variables Context ServerDetails ServiceManager CommandSummary : Type.
Variable Url : ServerDetails -> string.
Variable CreateServerDetailsWithConfigOffer : Context -> M (ServerDetails * error).
Variable CreateServiceManager : ServerDetails -> M (ServiceManager * error).
Variable GetRtMajorVersion : ServiceManager -> M (Z * error).
Variable InitMarkdownGenerationValues : string -> Z -> M error.
Variable SecurityCommandsJobSummary : M (CommandSummary * error).
Variable NewBuildInfoSummary : M (CommandSummary * error).
Variable NewUploadSummary : M (CommandSummary * error).
Variable GenerateMarkdown : CommandSummary -> M error.
Variable GetIndexedDataFilesPaths :
  CommandSummary -> M (list (Index * list (string * string)) * error).

Local Abbreviation invoke :=
  (invokeSectionMarkdownGeneration CommandSummary SecurityCommandsJobSummary
     NewBuildInfoSummary NewUploadSummary GenerateMarkdown GetIndexedDataFilesPaths).
Local Abbreviation attempt_ :=
  (attempt CommandSummary SecurityCommandsJobSummary
     NewBuildInfoSummary NewUploadSummary GenerateMarkdown GetIndexedDataFilesPaths).
Local Abbreviation extract :=
  (extractServerUrlAndVersion Context ServerDetails ServiceManager Url
     CreateServerDetailsWithConfigOffer CreateServiceManager GetRtMajorVersion).
Local Abbreviation finalize :=
  (GenerateSummaryMarkdown Context ServerDetails ServiceManager CommandSummary Url
     CreateServerDetailsWithConfigOffer CreateServiceManager GetRtMajorVersion
     InitMarkdownGenerationValues SecurityCommandsJobSummary
     NewBuildInfoSummary NewUploadSummary GenerateMarkdown GetIndexedDataFilesPaths).
Local Abbreviation generateUpload :=
  (generateUploadMarkdown CommandSummary NewUploadSummary GenerateMarkdown).
Local Abbreviation generateBuildInfo :=
  (generateBuildInfoMarkdown CommandSummary NewBuildInfoSummary GenerateMarkdown
     GetIndexedDataFilesPaths).

(** X14: without an output directory, the variable unset or empty, the
    finalize call returns an error at once: no collaborator is called and
    the world is as it was. *)
Theorem GenerateSummaryMarkdown_needs_output_dir c w :
  outputDir w = EmptyString ->
  exists msg, finalize c w = (Some (ErrorString msg), w).
Proof.
  intros Hdir. unfold GenerateSummaryMarkdown, ShouldGenerateSummary, bind, Getenv.
  fold (outputDir w). rewrite Hdir. by eexists.
Qed.

(** X15: the server URL and version come back without an error only with
    a URL that is not empty; with an error they are the empty string and
    zero, whatever the collaborators returned. *)
Theorem extractServerUrlAndVersion_results c w :
  let result :=
    (extractServerUrlAndVersion Context ServerDetails ServiceManager Url
       CreateServerDetailsWithConfigOffer CreateServiceManager GetRtMajorVersion c w).1 in
  (result.2 = None -> result.1.1 <> EmptyString)
  /\ (result.2 <> None -> result.1 = (EmptyString, 0%Z)).
Proof.
  cbv zeta. unfold extractServerUrlAndVersion, createPlatformDetailsByFlags, bind.
  destruct (CreateServerDetailsWithConfigOffer c w) as [[details [e|]] w1]; simpl; [done |].
  destruct (String.eqb (Url details) EmptyString) eqn:E; simpl; [done |].
  destruct (CreateServiceManager details w1) as [[manager [e|]] w2]; simpl; [done |].
  destruct (GetRtMajorVersion manager w2) as [[version [e|]] w3]; simpl; [done |].
  split; [| done]. intros _. by apply String.eqb_neq.
Qed.

(** X19: with the build-info path missing, or an empty directory that can
    be listed, the upload section is generated: the call is the upload
    collaborator's, its construction error wrapped. *)
Theorem generateUploadMarkdown_runs w :
  faults w (CStat (buildInfoPath w)) = None ->
  files w !! buildInfoPath w = None
  \/ (files w !! buildInfoPath w = Some (Dir [])
      /\ faults w (CReadDir (buildInfoPath w)) = None) ->
  generateUpload w =
    let '((uploadSummary, err), w1) := NewUploadSummary w in
    match err with
    | Some e => (Some (Errorf "error generating upload markdown: %w" e), w1)
    | None => GenerateMarkdown uploadSummary w1
    end.
Proof.
  intros Hs Hcases.
  assert (shouldGenerateUploadSummary w = ((true, None), w)) as Hshould.
  { unfold shouldGenerateUploadSummary, bind, Getenv.
    fold (outputDir w). fold (buildInfoPath w). unfold Stat, ReadDir. rewrite Hs.
    destruct Hcases as [Hf | [Hf Hr]]; rewrite Hf; simpl; [done |].
    by rewrite Hr, Hf. }
  unfold generateUploadMarkdown, bind. rewrite Hshould. simpl.
  by destruct (NewUploadSummary w) as [[uploadSummary [e|]] w1].
Qed.

(** X20: a section that is none of the three is an error, and nothing is
    called or changed for it. *)
Theorem invokeSectionMarkdownGeneration_unknown section w :
  section <> Security -> section <> BuildInfo -> section <> Upload ->
  invoke section w = (Some (ErrorString ("unknown section: " +:+ section)), w).
Proof.
  intros Hs Hb Hu. unfold invokeSectionMarkdownGeneration.
  apply String.eqb_neq in Hs, Hb, Hu. by rewrite Hs, Hb, Hu.
Qed.

(** X22: when the build-info summary and its indexed files are obtained,
    the markdown is generated in the world the collaborators left, with
    the scan-results variable replaced by the map built from nothing for
    this call: a name that was not scanned now, other than the fallback,
    has no entry, whatever the variable held before. *)
Theorem generateBuildInfoMarkdown_publishes buildInfoSummary indexedFiles w w1 w2 :
  NewBuildInfoSummary w = ((buildInfoSummary, None), w1) ->
  GetIndexedDataFilesPaths buildInfoSummary w1 = ((indexedFiles, None), w2) ->
  let mapping := (scanIndexes indexedFiles ∅ w2).1 in
  generateBuildInfo w =
    GenerateMarkdown buildInfoSummary
      (mkWorld (files w2) (env w2) (faults w2) (logs w2) mapping)
  /\ forall k, k ∉ scannedNames indexedFiles -> k <> "fallback" -> mapping !! k = None.
Proof.
  intros Hnew Hidx. cbv zeta. split.
  - unfold generateBuildInfoMarkdown, bind. rewrite Hnew, Hidx.
    pose proof (scanIndexes_keys indexedFiles ∅ w2) as (Hw & _).
    destruct (scanIndexes indexedFiles ∅ w2) as [mapping v]. simpl in Hw. by subst v.
  - intros k Hk Hf.
    pose proof (scanIndexes_keys indexedFiles ∅ w2) as (_ & _ & _ & Hframe & _).
    by rewrite (Hframe k Hk Hf).
Qed.

(** X24: a finalize call that gets past configuration, finds every
    section file readable and a document that is not empty, and is not
    refused the report file, leaves the report file holding the markdown
    of security, build-info and upload in this order, and no other file
    changed after the sections ran. *)
Theorem GenerateSummaryMarkdown_writes_report c w url ver w1 w2 :
  (ShouldGenerateSummary w).1 = true ->
  extract c w = ((url, ver, None), w1) ->
  InitMarkdownGenerationValues url ver w1 = (None, w2) ->
  let w3 := attempt_ Upload (attempt_ BuildInfo (attempt_ Security w2)) in
  let document :=
    sectionText Security w3 +:+ sectionText BuildInfo w3 +:+ sectionText Upload w3 in
  Forall (fun s => (getSectionMarkdownContent s w3).1.2 = None) markdownSections ->
  document <> EmptyString ->
  faults w3 (CCreate (reportPath w3)) = None ->
  faults w3 (CWriteString (reportPath w3)) = None ->
  (forall es, files w3 !! reportPath w3 <> Some (Dir es)) ->
  files (finalize c w).2 = <[reportPath w3 := File document]> (files w3).
Proof.
  intros Hshould Hextract Hinit w3 document Hread Hdoc Hc Hw Hd.
  rewrite (GenerateSummaryMarkdown_unfold _ _ _ _ _ _ _ _ _ _ _ _ _ _
             c w url ver w1 w2 Hshould Hextract Hinit).
  cbv zeta. fold w3. unfold combineMarkdownFiles.
  rewrite (combineSections_texts _ _ _ Hread).
  unfold markdownSections. cbn [fold_left].
  change (EmptyString +:+ ?x) with x. rewrite append_assoc. fold document.
  by apply saveMarkdownToFileSystem_written.
Qed.

End WithCollaborators.
End SummaryMore.

(* ===================================================================== *)
(** * The store and its entry point on concrete runs                     *)
(* ===================================================================== *)

Module MoreChecks.
Import Go GoFacts Cliutils RefJson RefJsonProps StoreProps StoreRuns EntryRuns.
Import StoreMore EntryProps EntryRun.

Lemma tree_after_append_witness :
  (generateUploadedFilesTree gh0 after1).1
    = (mkSummary (dirPath gh0) (rawDataFile gh0)
         (Some (uploadedTree ([] ++ elems (Some [r1])))), None).
Proof.
  apply (tree_after_append gh0 (reading [frag1]) (Some [r1]) fresh after1 []).
  - vm_compute. reflexivity.
  - vm_compute. reflexivity.
  - reflexivity.
Defined.

Lemma createTempFile_keeps_existing_witness :
  createTempFile (getDataFilePath gh0) (mkWrapper (Some [])) after1 = (None, after1).
Proof.
  apply (createTempFile_keeps_existing (getDataFilePath gh0) (mkWrapper (Some []))
           (indWrapper (mkWrapper (Some [r1]))) after1).
  - reflexivity.
  - vm_compute. reflexivity.
Defined.

Lemma createTempFile_creates_witness :
  (createTempFile (getDataFilePath gh0) (mkWrapper (Some [])) fresh).1
    = failing (CClose (getDataFilePath gh0)) "close" (getDataFilePath gh0) fresh
  /\ files (createTempFile (getDataFilePath gh0) (mkWrapper (Some [])) fresh).2
     = <[getDataFilePath gh0 := File (encWrapper (mkWrapper (Some [])))]> (files fresh).
Proof.
  apply (createTempFile_creates (getDataFilePath gh0) (mkWrapper (Some []))
           (encWrapper (mkWrapper (Some []))) fresh).
  - vm_compute. reflexivity.
  - reflexivity.
  - reflexivity.
  - reflexivity.
  - reflexivity.
Defined.

Lemma generateMarkdown_starts_afresh_witness :
  files (generateMarkdown withTree step).2 !! summaryPath withTree
    = Some (File (summaryMarkdown (uploadedTree [r1; r2; r3]))).
Proof.
  apply (generateMarkdown_starts_afresh withTree (uploadedTree [r1; r2; r3]) step).
  - reflexivity.
  - reflexivity.
  - reflexivity.
  - reflexivity.
  - intros e es. vm_compute. discriminate.
Defined.

Lemma generateMarkdown_appends_to_unremoved_witness :
  files (generateMarkdown withTree sticky).2 !! summaryPath withTree
    = Some (File ("old summary" +:+ summaryMarkdown (uploadedTree [r1; r2; r3]))).
Proof.
  apply (generateMarkdown_appends_to_unremoved withTree (uploadedTree [r1; r2; r3])
           "old summary" EACCES sticky).
  - reflexivity.
  - reflexivity.
  - vm_compute. reflexivity.
  - reflexivity.
  - reflexivity.
Defined.

Lemma loadAndMarshalResultsFile_revisions_agree_witness :
  (Cliutils2.loadAndMarshalResultsFile gh2 step).1 = (loadAndMarshalResultsFile gh0 step).1
  /\ (Cliutils2.loadAndMarshalResultsFile gh2 step).2 = step.
Proof.
  apply (loadAndMarshalResultsFile_revisions_agree gh0 gh2 step); reflexivity.
Defined.

Lemma GenerateGitHubActionSummary_off_witness :
  GenerateGitHubActionSummary mkdir (reading [frag2]) local = (Returns None, local).
Proof.
  apply (GenerateGitHubActionSummary_off mkdir (reading [frag2]) local).
  vm_compute. discriminate.
Defined.


Lemma GenerateGitHubActionSummary_run_witness :
  (GenerateGitHubActionSummary mkdir (reading [frag2]) step).1
    = Returns (failing (CClose (summaryPath gh0)) "close" (summaryPath gh0)
                 (mkdir homeDir step).2)
  /\ persisted gh0 (GenerateGitHubActionSummary mkdir (reading [frag2]) step).2
     = Some ([r1] ++ elems (Some [r2; r3]))
  /\ files (GenerateGitHubActionSummary mkdir (reading [frag2]) step).2 !! summaryPath gh0
     = Some (File (summaryMarkdown (uploadedTree ([r1] ++ elems (Some [r2; r3]))))).
Proof.
  apply (GenerateGitHubActionSummary_run mkdir (reading [frag2]) (Some [r2; r3]) [r1]
           step (mkdir homeDir step).2).
  - vm_compute. reflexivity.
  - reflexivity.
  - vm_compute. reflexivity.
  - vm_compute. reflexivity.
  - reflexivity.
  - reflexivity.
  - reflexivity.
  - reflexivity.
  - intros es. vm_compute. discriminate.
Defined.

(** The run on the step, computed: the markdown lists the three files. *)
Example step_markdown :
  files (GenerateGitHubActionSummary mkdir (reading [frag2]) step).2 !! summaryPath gh0
    = Some (File (summaryMarkdown
                    (PathTree.Node
                       [("repo", PathTree.Node
                          [("x", PathTree.Node [("a.txt", PathTree.Node []);
                                                ("b.txt", PathTree.Node [])]);
                           ("y", PathTree.Node [("c.txt", PathTree.Node [])])])]))).
Proof. vm_compute. reflexivity. Qed.

End MoreChecks.

(* ===================================================================== *)
(** * More of the aggregator on concrete runs                            *)
(* ===================================================================== *)

Module MoreSummaryChecks.
Import Go GoFacts Summary SummaryProps SummaryRuns SummaryMore.

Lemma GenerateSummaryMarkdown_needs_output_dir_witness :
  exists msg, finalize StoreRuns.fresh = (Some (ErrorString msg), StoreRuns.fresh).
Proof.
  apply (GenerateSummaryMarkdown_needs_output_dir unit string unit MarkdownSection
           (fun url => url) details manager version init securitySummary
           buildInfoSummary uploadSummary writeSection indexed tt StoreRuns.fresh).
  vm_compute. reflexivity.
Defined.

Lemma shouldGenerateUploadSummary_decides_witness :
  shouldGenerateUploadSummary built =
    (match files built !! buildInfoPath built with
     | None => (true, None)
     | Some (Dir es) => (Nat.eqb (length es) 0, None)
     | Some (File _) =>
         (false, Some (Errorf "error reading directory: %w"
                         (PathError "readdirent" (buildInfoPath built) ENOTDIR)))
     end, built).
Proof.
  apply (shouldGenerateUploadSummary_decides built); reflexivity.
Defined.

Lemma generateUploadMarkdown_runs_witness :
  generateUploadMarkdown MarkdownSection uploadSummary writeSection bare =
    let '((summary_, err), w1) := uploadSummary bare in
    match err with
    | Some e => (Some (Errorf "error generating upload markdown: %w" e), w1)
    | None => writeSection summary_ w1
    end.
Proof.
  apply (generateUploadMarkdown_runs MarkdownSection uploadSummary writeSection bare).
  - reflexivity.
  - left. vm_compute. reflexivity.
Defined.

Lemma invokeSectionMarkdownGeneration_unknown_witness :
  invoke "licenses" bare
    = (Some (ErrorString ("unknown section: " +:+ "licenses")), bare).
Proof.
  apply (invokeSectionMarkdownGeneration_unknown MarkdownSection securitySummary
           buildInfoSummary uploadSummary writeSection indexed "licenses" bare);
    discriminate.
Defined.

Lemma generateBuildInfoMarkdown_publishes_witness :
  let mapping :=
    (scanIndexes [(BuildScan, [("my-build", "build-scans/1.json")])] ∅ bare).1 in
  generateBuildInfoMarkdown MarkdownSection buildInfoSummary writeSection indexed bare =
    writeSection BuildInfo
      (mkWorld (files bare) (env bare) (faults bare) (logs bare) mapping)
  /\ forall k,
       k ∉ scannedNames [(BuildScan, [("my-build", "build-scans/1.json")])] ->
       k <> "fallback" -> mapping !! k = None.
Proof.
  apply (generateBuildInfoMarkdown_publishes MarkdownSection buildInfoSummary
           writeSection indexed BuildInfo
           [(BuildScan, [("my-build", "build-scans/1.json")])] bare bare bare);
    reflexivity.
Defined.

(** The map the build-info section publishes on that run. *)
Example published_mapping :
  ScanResultsMapping
    (generateBuildInfoMarkdown MarkdownSection buildInfoSummary writeSection indexed bare).2
  = {[ "my-build" :=
         Some (mkScan "Mock Build Scan Violations" "Mock Build Scan Vulnerabilities");
       "fallback" := Some notScanned ]}.
Proof. vm_compute. reflexivity. Qed.

Lemma saveMarkdownToFileSystem_replaces_witness :
  files (saveMarkdownToFileSystem "# report" reported).2
    = <[reportPath reported := File "# report"]> (files reported).
Proof.
  apply (saveMarkdownToFileSystem_replaces "# report" reported).
  - discriminate.
  - reflexivity.
  - reflexivity.
  - intros es. vm_compute. discriminate.
Defined.

Lemma GenerateSummaryMarkdown_writes_report_witness :
  let w3 :=
    attempt MarkdownSection securitySummary buildInfoSummary uploadSummary
      writeSection indexed Upload
      (attempt MarkdownSection securitySummary buildInfoSummary uploadSummary
         writeSection indexed BuildInfo
         (attempt MarkdownSection securitySummary buildInfoSummary uploadSummary
            writeSection indexed Security stale)) in
  files (finalize stale).2
    = <[reportPath w3 :=
          File (sectionText Security w3 +:+ sectionText BuildInfo w3
                  +:+ sectionText Upload w3)]> (files w3).
Proof.
  apply (GenerateSummaryMarkdown_writes_report unit string unit MarkdownSection
           (fun url => url) details manager version init securitySummary
           buildInfoSummary uploadSummary writeSection indexed tt stale
           "https://rt.example/" 7%Z stale stale).
  - reflexivity.
  - reflexivity.
  - reflexivity.
  - repeat constructor; vm_compute; reflexivity.
  - vm_compute. discriminate.
  - reflexivity.
  - reflexivity.
  - intros es. vm_compute. discriminate.
Defined.

End MoreSummaryChecks.
